(** * du-number-checker: a shallow embedding of [du-number-checker.py]

    The script drives a headless browser through the du prepaid page,
    searches every configured number, classifies the rendered text and
    sends one Telegram message when at least one number looks available.

    Modelling choices.
    - A Python [str] is a [string]; [x in y] on strings is [str_in],
      [y.replace(" ", "")] is [str_replace " " ""].  Substring tests and
      the removal of spaces give the same answers on UTF-8 bytes as on
      code points.
    - The browser page and the HTTP endpoint are external collaborators:
      every interaction with them is a [call], answered by an arbitrary
      handler [respond] over an arbitrary world state.  An answer is a
      value or a raised Python [Exception].  Locators are lazy: building
      one is not a call.  The property [page.url] is read through a call
      as well.
    - Python code becomes a state-and-exception monad [M] over the world,
      the events of the run (calls, printed lines, tracebacks) and the
      list [available] that [check_numbers] mutates.
    - [browser.close()] and leaving the [sync_playwright] context are
      calls like the others: they may raise, and nothing catches what
      the [finally] of [check_numbers] or the end of the [with] block
      raises.
    - [print], [traceback.print_exc] and string formatting do not raise;
      signals outside [Exception] (KeyboardInterrupt, SystemExit) are
      outside the model. *)

From Stdlib Require Import String Ascii ZArith Bool DecimalString.
From stdpp Require Import base list.

Local Open Scope string_scope.

(* ================================================================= *)
(** ** Python string operations used by the script *)

Module PyStr.

(** [s.replace(old, new)] for a one-character [old]. *)
Fixpoint str_replace (old : ascii) (new s : string) : string :=
  match s with
  | EmptyString => EmptyString
  | String c s' =>
      if Ascii.eqb c old then new ++ str_replace old new s'
      else String c (str_replace old new s')
  end.

(** [needle in hay] on strings: [needle] starts at some offset of [hay]. *)
Fixpoint str_in (needle hay : string) : bool :=
  match hay with
  | EmptyString => String.prefix needle EmptyString
  | String _ hay' => String.prefix needle hay || str_in needle hay'
  end.

(** [not s]: the empty string is the only falsy string. *)
Definition str_falsy (s : string) : bool :=
  match s with EmptyString => true | String _ _ => false end.

(** [o or ""] for an [Optional[str]]. *)
Definition or_empty (o : option string) : string :=
  match o with
  | None => ""
  | Some s => if str_falsy s then "" else s
  end.

(** ["\n".join(lines)] *)
Fixpoint join (sep : string) (lines : list string) : string :=
  match lines with
  | [] => ""
  | [l] => l
  | l :: ls => l ++ sep ++ join sep ls
  end.

End PyStr.
Import PyStr.

Definition newline : string := String (ascii_of_nat 10) EmptyString.

(* ================================================================= *)
(** ** The external collaborators: browser page and HTTP endpoint *)

(** A Python exception (an instance of [Exception]).  The script only
    distinguishes Playwright's [TimeoutError]; [str(e)] and [repr(e)]
    are what it prints. *)
Record exn := Exn {
  is_PlaywrightTimeoutError : bool;
  exn_str : string;
  exn_repr : string
}.

(** Playwright locators are lazy descriptions of elements: building one
    never touches the page. *)
Inductive locator :=
| get_by_placeholder (text : string)
| get_by_role (role name : string)
| get_by_text (text : string) (exact : bool)
| page_locator (selector : string)
| loc_first (l : locator)
| loc_nth (l : locator) (i : nat)
| loc_locator (l : locator) (selector : string)
| loc_get_by_text (l : locator) (text : string) (exact : bool).

(** Every operation that reaches outside the interpreter. *)
Inductive call :=
| SyncPlaywrightStart                       (* sync_playwright().__enter__() *)
| Launch                                    (* p.chromium.launch(...) *)
| NewPage                                   (* browser.new_page() *)
| BrowserClose                              (* browser.close() *)
| SyncPlaywrightStop                        (* sync_playwright().__exit__() *)
| Goto (url : string) (timeout : Z)         (* page.goto(url, ...) *)
| PageUrl                                   (* page.url *)
| WaitForTimeout (ms : Z)                   (* page.wait_for_timeout(ms) *)
| Count (l : locator)                       (* l.count() *)
| Click (l : locator) (force : bool)        (* l.click(force=...) *)
| Fill (l : locator) (value : string)       (* l.fill(value) *)
| Press (l : locator) (key : string)        (* l.press(key) *)
| IsVisible (l : locator)                   (* l.is_visible() *)
| TextContent (selector : string)           (* page.text_content(selector) *)
| Post (url chat_id text : string) (timeout : Z).
                                            (* requests.post(url, data=..., timeout=...) *)

(** The HTTP response as far as the script looks at it. *)
Record response := Response { status_code : Z; resp_text : string }.

Definition answer (c : call) : Type :=
  match c with
  | PageUrl => string
  | Count _ => nat
  | IsVisible _ => bool
  | TextContent _ => option string
  | Post _ _ _ _ => response
  | _ => unit
  end.

Inductive res (A : Type) :=
| Ret (a : A)
| Raise (e : exn).
Arguments Ret {A} a.
Arguments Raise {A} e.

(** What a run leaves behind, in order. *)
Inductive event :=
| Called (c : call)             (* an external call was made *)
| Printed (line : string)       (* print(...) *)
| PrintExc (e : exn).           (* traceback.print_exc() *)

Definition is_post (ev : event) : bool :=
  match ev with Called (Post _ _ _ _) => true | _ => false end.

(** The HTTP calls among the events. *)
Definition http_calls (evs : list event) : list event := List.filter is_post evs.

(** The module-level configuration, read once at import. *)
Record config := Config {
  DU_URL : string;
  NUMBERS_TO_CHECK : list (string * string);
  TELEGRAM_BOT_TOKEN : string;   (* os.environ.get("TELEGRAM_BOT_TOKEN", <default>) *)
  TELEGRAM_CHAT_ID : string      (* os.environ.get("TELEGRAM_CHAT_ID", <default>) *)
}.

(* ================================================================= *)
(** ** The interpreter state and the monad of Python statements *)

Section Monad.

Context {W : Type}.

Record state := State {
  world : W;
  events : list event;
  available : list (string * string)   (* the list built by check_numbers *)
}.

Definition M (A : Type) : Type := state -> state * res A.

Definition ret {A} (a : A) : M A := fun s => (s, Ret a).

Definition raise {A} (e : exn) : M A := fun s => (s, Raise e).

Definition bind {A B} (m : M A) (k : A -> M B) : M B :=
  fun s =>
    match m s with
    | (s', Ret a) => k a s'
    | (s', Raise e) => (s', Raise e)
    end.

(** [try: m  except Exception as e: h e] *)
Definition try_except {A} (m : M A) (h : exn -> M A) : M A :=
  fun s =>
    match m s with
    | (s', Ret a) => (s', Ret a)
    | (s', Raise e) => h e s'
    end.

(** [try: m  except <class> as e: h e], for the classes selected by [p]. *)
Definition try_except_if {A} (p : exn -> bool) (m : M A) (h : exn -> M A) : M A :=
  fun s =>
    match m s with
    | (s', Ret a) => (s', Ret a)
    | (s', Raise e) => if p e then h e s' else (s', Raise e)
    end.

(** [try: m  finally: f]; an exception of [f] replaces the outcome of [m]. *)
Definition try_finally {A} (m : M A) (f : M unit) : M A :=
  fun s =>
    match m s with
    | (s', r) =>
        match f s' with
        | (s'', Ret _) => (s'', r)
        | (s'', Raise e) => (s'', Raise e)
        end
    end.

Definition emit (ev : event) : M unit :=
  fun s => (State (world s) (events s ++ [ev]) (available s), Ret tt).

(** An external call: recorded, then answered by the world through
    [respond], which also says how the world changes. *)
Definition do_call (respond : forall c : call, W -> W * res (answer c))
    (c : call) : M (answer c) :=
  fun s =>
    match respond c (world s) with
    | (w', r) => (State w' (events s ++ [Called c]) (available s), r)
    end.

(** [print(a, b, ...)] writes its arguments separated by one space. *)
Definition print (args : list string) : M unit := emit (Printed (join " " args)).

Definition print_exc (e : exn) : M unit := emit (PrintExc e).

Definition get_available : M (list (string * string)) :=
  fun s => (s, Ret (available s)).

Definition set_available (l : list (string * string)) : M unit :=
  fun s => (State (world s) (events s) l, Ret tt).

(** [available.append(x)] *)
Definition available_append (x : string * string) : M unit :=
  fun s => (State (world s) (events s) (available s ++ [x]), Ret tt).

End Monad.
Arguments state : clear implicits.
Arguments M : clear implicits.

Declare Scope py_scope.
Delimit Scope py_scope with py.
Notation "x <- m ;; k" := (bind m (fun x => k))
  (at level 100, m at next level, right associativity) : py_scope.
Notation "m ;; k" := (bind m (fun _ => k))
  (at level 100, right associativity) : py_scope.
Local Open Scope py_scope.

(** [for x in xs: body x] *)
Fixpoint for_each {W A} (xs : list A) (body : A -> M W unit) : M W unit :=
  match xs with
  | [] => ret tt
  | x :: xs' => body x ;; for_each xs' body
  end.

(** [str(n)] for a non-negative integer. *)
Definition str_of_nat (n : nat) : string :=
  NilEmpty.string_of_uint (Nat.to_uint n).

(* ================================================================= *)
(** ** The script *)

Section Script.

Context {W : Type}.
Variable respond : forall c : call, W -> W * res (answer c).
Variable cfg : config.

Local Abbreviation M := (M W).
Local Abbreviation do_call := (do_call respond).

(** *** Telegram utils *)

(** [send_telegram_message(text)] *)
Definition send_telegram_message (text : string) : M unit :=
  let token := TELEGRAM_BOT_TOKEN cfg in
  let chat_id := TELEGRAM_CHAT_ID cfg in
  if str_falsy token || str_falsy chat_id
     || str_in "PUT_YOUR" token || str_in "PUT_YOUR" chat_id
  then
    print ["[WARN] Telegram credentials not set; skipping notification."]
  else
    let url := "https://api.telegram.org/bot" ++ token ++ "/sendMessage" in
    try_except
      (resp <- do_call (Post url chat_id text 10) ;;
       if negb (status_code resp =? 200)%Z
       then print ["[ERROR] Failed to send Telegram message:"; resp_text resp]
       else print ["[INFO] Telegram notification sent."])
      (fun e =>
         print ["[ERROR] Exception while sending Telegram message:"; exn_repr e]).

(** *** Playwright helpers *)

(** The [for i in range(count)] scan of strategy 3, from index [i] with
    [n] iterations left; [Some el] is the [return el] inside the loop. *)
Fixpoint scan_candidates (candidates : locator) (i n : nat) : M (option locator) :=
  match n with
  | O => ret None
  | S n' =>
      let el := loc_nth candidates i in
      r <- try_except
             (v <- do_call (IsVisible el) ;;
              if v
              then print ["[DEBUG] Using visible input candidate #" ++ str_of_nat i] ;;
                   ret (Some el)
              else ret None)
             (fun _ => ret None) ;;
      match r with
      | Some el => ret (Some el)
      | None => scan_candidates candidates (S i) n'
      end
  end.

(** [get_search_box(page)]; [None] is Python's [None]. *)
Definition get_search_box : M (option locator) :=
  (* 1) placeholder *)
  r1 <- try_except
          (let loc := get_by_placeholder "Search for a number" in
           c <- do_call (Count loc) ;;
           if (0 <? c)%nat
           then print ["[DEBUG] Found search box via placeholder."] ;;
                ret (Some (loc_first loc))
           else ret None)
          (fun _ => ret None) ;;
  match r1 with
  | Some el => ret (Some el)
  | None =>
  (* 2) role/name *)
  r2 <- try_except
          (let loc := get_by_role "textbox" "Search for a number" in
           c <- do_call (Count loc) ;;
           if (0 <? c)%nat
           then print ["[DEBUG] Found search box via role/name."] ;;
                ret (Some (loc_first loc))
           else ret None)
          (fun _ => ret None) ;;
  match r2 with
  | Some el => ret (Some el)
  | None =>
  (* 3) any visible text/search input *)
  print ["[DEBUG] Falling back to visible text/search input detection..."] ;;
  let candidates := page_locator "input[type='text'], input[type='search']" in
  count <- do_call (Count candidates) ;;
  print ["[DEBUG] Found " ++ str_of_nat count ++ " candidate input(s)."] ;;
  scan_candidates candidates 0 count
  end end.

(** [open_du_number_modal(page)] *)
Definition open_du_number_modal : M unit :=
  print ["[INFO] Opening du page..."] ;;
  try_except_if is_PlaywrightTimeoutError
    (do_call (Goto (DU_URL cfg) 30000))
    (fun _ =>
       url <- do_call PageUrl ;;
       print ["[WARN] Page load timeout, continuing anyway (URL: " ++ url ++ ")"]) ;;
  do_call (WaitForTimeout 3000) ;;
  try_except
    (let popup_btn := get_by_text "I'll do this later" false in
     c <- do_call (Count popup_btn) ;;
     if (0 <? c)%nat
     then print ["[INFO] Dismissing notification popup..."] ;;
          do_call (Click (loc_first popup_btn) false) ;;
          do_call (WaitForTimeout 500)
     else ret tt)
    (fun _ => ret tt) ;;
  print ["[INFO] Clicking 'Setup my plan'..."] ;;
  do_call (Click (loc_first (get_by_text "Setup my plan" false)) false) ;;
  do_call (WaitForTimeout 3000) ;;
  print ["[INFO] Clicking 'Change' on the number card..."] ;;
  try_except
    (let change_link := loc_first (get_by_text "Change" true) in
     do_call (Click change_link true))
    (fun e =>
       print ["[WARN] Exact 'Change' click failed (" ++ exn_str e
              ++ "). Trying scoped locator..."] ;;
       try_except
         (let card := loc_first (get_by_text "Your new number" false) in
          let change_link :=
            loc_first (loc_get_by_text (loc_locator card "xpath=..") "Change" false) in
          do_call (Click change_link true))
         (fun e2 =>
            print ["[ERROR] Could not click 'Change' on card:"; exn_repr e2] ;;
            raise e2)) ;;
  do_call (WaitForTimeout 3000) ;;
  print ["[INFO] Number picker modal should now be open."].

(** *** Core check logic *)

(** Lines 187-194 of the loop body: announce, type the query, submit,
    wait, read the page text ([None] is Python's [None]). *)
Definition submit_and_read (search_box : locator) (search_value : string)
    : M (option string) :=
  print ["[INFO] Checking number '" ++ search_value ++ "'..."] ;;
  do_call (Click search_box false) ;;
  do_call (Fill search_box search_value) ;;
  do_call (Press search_box "Enter") ;;
  do_call (WaitForTimeout 5000) ;;
  do_call (TextContent "body").

(** Lines 195-204 of the loop body: normalise and classify. *)
Definition classify (body_text search_value match_fragment : string) : M unit :=
  let normalized_body := str_replace " " "" body_text in
  let normalized_fragment := str_replace " " "" match_fragment in
  if str_in "No results found" body_text then
    print ["[INFO] '" ++ search_value ++ "' not available (No results found)."]
  else if str_in normalized_fragment normalized_body then
    print ["[INFO] '" ++ match_fragment ++ "' appears to be AVAILABLE."] ;;
    available_append (search_value, match_fragment)
  else
    print ["[WARN] Ambiguous result for '" ++ search_value
           ++ "'. Did not see 'No results found' or the exact fragment."].

(** One iteration of the loop over [NUMBERS_TO_CHECK], lines 186-207. *)
Definition check_one (search_box : locator) (q : string * string) : M unit :=
  let '(search_value, match_fragment) := q in
  try_except
    (t <- submit_and_read search_box search_value ;;
     let body_text := or_empty t in
     classify body_text search_value match_fragment)
    (fun e =>
       print ["[ERROR] Error while checking '" ++ search_value ++ "': " ++ exn_repr e] ;;
       print_exc e).

(** The [try] block of [check_numbers], lines 174-207; [Some v] is the
    early [return v], [None] is falling off the end of the block. *)
Definition check_numbers_try : M (option (list (string * string))) :=
  open_du_number_modal ;;
  print ["[INFO] Locating search input in modal..."] ;;
  search_box <- get_search_box ;;
  match search_box with
  | None =>
      print ["[ERROR] Could not find any suitable search input."] ;;
      do_call BrowserClose ;;
      v <- get_available ;;
      ret (Some v)
  | Some search_box =>
      for_each (NUMBERS_TO_CHECK cfg) (check_one search_box) ;;
      ret None
  end.

(** The [try ... except Exception as outer] statement, lines 173-211. *)
Definition check_numbers_guarded : M (option (list (string * string))) :=
  try_except
    check_numbers_try
    (fun outer =>
       print ["[ERROR] Failed during page setup or modal open:"; exn_repr outer] ;;
       print_exc outer ;;
       ret None).

(** [check_numbers()] *)
Definition check_numbers : M (list (string * string)) :=
  set_available [] ;;
  do_call SyncPlaywrightStart ;;
  returned <-
    try_finally
      (do_call Launch ;;
       do_call NewPage ;;
       try_finally check_numbers_guarded (do_call BrowserClose))
      (do_call SyncPlaywrightStop) ;;
  match returned with
  | Some v => ret v
  | None => get_available
  end.

(** *** Entrypoint *)

(** The list [lines] built at lines 230-232. *)
Definition message_lines (available : list (string * string)) : list string :=
  "The following numbers appear to be available on du:"
  :: map (fun '(search_value, match_fragment) => "- " ++ match_fragment) available.

(** [message = "\n".join(lines)] *)
Definition message (available : list (string * string)) : string :=
  join newline (message_lines available).

(** [main()] *)
Definition main : M unit :=
  print ["[INFO] Starting du number check..."] ;;
  available <- check_numbers ;;
  match available with
  | [] => print ["[INFO] No numbers available today."]
  | _ :: _ =>
      print ["[INFO] At least one number appears available. Sending Telegram alert..."] ;;
      send_telegram_message (message available)
  end.

End Script.

(* ================================================================= *)
(** ** The steps of [open_du_number_modal], one by one *)

Section ModalSteps.

Context {W : Type}.
Variable respond : forall c : call, W -> W * res (answer c).
Variable cfg : config.

Local Abbreviation M := (M W).
Local Abbreviation do_call := (do_call respond).

(** Lines 112-117: load the page; a navigation timeout is only a warning. *)
Definition load_page : M unit :=
  print ["[INFO] Opening du page..."] ;;
  try_except_if is_PlaywrightTimeoutError
    (do_call (Goto (DU_URL cfg) 30000))
    (fun _ =>
       url <- do_call PageUrl ;;
       print ["[WARN] Page load timeout, continuing anyway (URL: " ++ url ++ ")"]) ;;
  do_call (WaitForTimeout 3000).

(** Lines 119-127: dismiss the notification popup if it appears. *)
Definition dismiss_popup : M unit :=
  try_except
    (let popup_btn := get_by_text "I'll do this later" false in
     c <- do_call (Count popup_btn) ;;
     if (0 <? c)%nat
     then print ["[INFO] Dismissing notification popup..."] ;;
          do_call (Click (loc_first popup_btn) false) ;;
          do_call (WaitForTimeout 500)
     else ret tt)
    (fun _ => ret tt).

(** Lines 129-132: click "Setup my plan". *)
Definition click_setup_my_plan : M unit :=
  print ["[INFO] Clicking 'Setup my plan'..."] ;;
  do_call (Click (loc_first (get_by_text "Setup my plan" false)) false) ;;
  do_call (WaitForTimeout 3000).

(** The two locators of the "Change" link, lines 137 and 142-143. *)
Definition exact_change_link : locator := loc_first (get_by_text "Change" true).

Definition scoped_change_link : locator :=
  loc_first (loc_get_by_text
               (loc_locator (loc_first (get_by_text "Your new number" false)) "xpath=..")
               "Change" false).

(** Lines 134-147: click "Change" on the number card, with its fallback. *)
Definition click_change : M unit :=
  print ["[INFO] Clicking 'Change' on the number card..."] ;;
  try_except
    (do_call (Click exact_change_link true))
    (fun e =>
       print ["[WARN] Exact 'Change' click failed (" ++ exn_str e
              ++ "). Trying scoped locator..."] ;;
       try_except
         (do_call (Click scoped_change_link true))
         (fun e2 =>
            print ["[ERROR] Could not click 'Change' on card:"; exn_repr e2] ;;
            raise e2)).

(** Lines 149-150. *)
Definition modal_should_be_open : M unit :=
  do_call (WaitForTimeout 3000) ;;
  print ["[INFO] Number picker modal should now be open."].

End ModalSteps.

(* ================================================================= *)
(** ** Concrete worlds, for running the script *)

(** A scripted page: what [count()], [is_visible()] and [click()] answer
    for each locator, the answers of the successive
    [text_content("body")] reads, and the answer of the HTTP endpoint.
    The world state counts the reads made so far. *)
Record script := Script {
  on_count : locator -> res nat;
  on_is_visible : locator -> res bool;
  on_click : locator -> res unit;
  bodies : list (res (option string));
  on_post : res response
}.

Definition scripted (sc : script) (c : call) (w : nat) : nat * res (answer c) :=
  match c return nat * res (answer c) with
  | Count l => (w, on_count sc l)
  | IsVisible l => (w, on_is_visible sc l)
  | Click l _ => (w, on_click sc l)
  | TextContent _ => (S w, nth w (bodies sc) (Ret None))
  | Post _ _ _ _ => (w, on_post sc)
  | PageUrl => (w, Ret "about:blank")
  | SyncPlaywrightStart | Launch | NewPage | BrowserClose | SyncPlaywrightStop
  | Goto _ _ | WaitForTimeout _ | Fill _ _ | Press _ _ => (w, Ret tt)
  end.

Definition initial : state nat := State 0 [] [].

Definition target_closed : exn :=
  Exn false "Target page, context or browser has been closed"
      "TargetClosedError('Target page, context or browser has been closed')".

Definition detached : exn :=
  Exn false "Element is not attached to the DOM"
      "Error('Element is not attached to the DOM')".

(** A page whose number picker opens and shows the placeholder input. *)
Definition page_with_input (texts : list (res (option string))) (post : res response)
    : script :=
  Script (fun _ => Ret 1%nat) (fun _ => Ret true) (fun _ => Ret tt) texts post.

(** A page on which no lookup finds anything. *)
Definition page_without_input : script :=
  Script (fun _ => Ret 0%nat) (fun _ => Ret false) (fun _ => Ret tt) [] (Ret (Response 200 "")).

(** A page that goes away once the modal is open: no popup is found and
    the clicks that open the modal succeed while the page is there;
    afterwards every lookup of the search box raises. *)
Definition page_closed : script :=
  Script (fun l => match l with
                   | get_by_text _ _ => Ret 0%nat
                   | _ => Raise target_closed
                   end)
         (fun _ => Raise target_closed)
         (fun _ => Ret tt) [] (Ret (Response 200 "")).

(** The configuration of the scenario of the specification. *)
Definition scenario_cfg : config :=
  Config "https://shop.du.ae/en/personal/s-du-prepaid-flexi-plans"
         [("282 0202", "282 0202"); ("1051661", "1051661")]
         "123:token" "42".

(** The handle [get_search_box] returns on a page with the placeholder. *)
Definition search_input : locator := loc_first (get_by_placeholder "Search for a number").

Definition ok_response : res response := Ret (Response 200 "ok").

(** The scenario of the specification: the first search shows the
    marker, the second shows the number. *)
Definition scenario_page : script :=
  page_with_input [Ret (Some "Sorry. No results found");
                   Ret (Some "1051661 is available now")] ok_response.

(** The marker next to the very digits that were searched. *)
Definition marker_page : script :=
  page_with_input [Ret (Some "282 0202 - No results found")] ok_response.

(** The number shown with a space, and shown without. *)
Definition spaced_page : script :=
  page_with_input [Ret (Some "Number 282 0202 is free")] ok_response.

Definition compact_page : script :=
  page_with_input [Ret (Some "Number 2820202 is free")] ok_response.

(** The number shown over two lines. *)
Definition line_break_page : script :=
  page_with_input [Ret (Some ("282" ++ newline ++ "0202"))] ok_response.

(** [text_content] answers [None]. *)
Definition absent_text_page : script :=
  page_with_input [Ret None] ok_response.

(** The first read raises, the second shows the number. *)
Definition detached_page : script :=
  page_with_input [Raise detached; Ret (Some "1051661 is available now")] ok_response.

Definition connection_error : exn :=
  Exn false "Connection refused" "ConnectionError('Connection refused')".

(** The endpoint cannot be reached, or answers 403. *)
Definition unreachable_page : script :=
  page_with_input [Ret (Some "1051661 is available now")] (Raise connection_error).

Definition forbidden_page : script :=
  page_with_input [Ret (Some "1051661 is available now")]
                  (Ret (Response 403 "Forbidden")).

(** A configuration still holding the placeholder token. *)
Definition placeholder_cfg : config :=
  Config "https://shop.du.ae/en/personal/s-du-prepaid-flexi-plans"
         [("282 0202", "282 0202")]
         "PUT_YOUR_BOT_TOKEN_HERE" "42".

(** The state in which the read of [sv] on the page [sc] ends, from
    [initial]. *)
Definition after_read (sc : script) (sv : string) : state nat :=
  fst (submit_and_read (scripted sc) search_input sv initial).

(** The state in which [check_numbers] ends on the page [sc], run by
    [main] from [initial]. *)
Definition after_check (sc : script) (cfg : config) : state nat :=
  fst (check_numbers (scripted sc) cfg
         (State 0 [Printed "[INFO] Starting du number check..."] [])).

(** A handler changed at one kind of call: [page.goto] answers [r]. *)
Definition with_goto (r : res unit)
    (h : forall c : call, nat -> nat * res (answer c))
    (c : call) (w : nat) : nat * res (answer c) :=
  match c return nat * res (answer c) with
  | Goto _ _ => (w, r)
  | c0 => h c0 w
  end.


(** [browser.close()] answers [r]. *)
Definition with_close (r : res unit)
    (h : forall c : call, nat -> nat * res (answer c))
    (c : call) (w : nat) : nat * res (answer c) :=
  match c return nat * res (answer c) with
  | BrowserClose => (w, r)
  | c0 => h c0 w
  end.

Definition navigation_timeout : exn :=
  Exn true "Timeout 30000ms exceeded." "TimeoutError('Timeout 30000ms exceeded.')".

Definition name_not_resolved : exn :=
  Exn false "net::ERR_NAME_NOT_RESOLVED" "Error('net::ERR_NAME_NOT_RESOLVED')".


Definition not_clickable : exn :=
  Exn true "Timeout 30000ms exceeded." "TimeoutError('Timeout 30000ms exceeded.')".

(** The generic selector of strategy 3. *)
Definition text_inputs : locator :=
  page_locator "input[type='text'], input[type='search']".

(** A page without placeholder or role: three plain inputs, the first
    hidden, the second detached, the third visible. *)
Definition page_with_plain_inputs : script :=
  Script (fun l => match l with
                   | page_locator _ => Ret 3%nat
                   | _ => Ret 0%nat
                   end)
         (fun l => match l with
                   | loc_nth _ 0 => Ret false
                   | loc_nth _ 1 => Raise detached
                   | _ => Ret true
                   end)
         (fun _ => Ret tt)
         [Ret (Some "1051661 is available now")] ok_response.

(** A page with the role but no placeholder. *)
Definition page_with_role : script :=
  Script (fun l => match l with
                   | get_by_role _ _ => Ret 1%nat
                   | _ => Ret 0%nat
                   end)
         (fun _ => Ret false) (fun _ => Ret tt) [] ok_response.

(** A page on which no "Change" link can be clicked, and one on which
    only the scoped link can. *)
Definition page_without_change : script :=
  Script (fun _ => Ret 0%nat) (fun _ => Ret false)
         (fun l => match l with
                   | loc_first (get_by_text _ true) => Raise not_clickable
                   | loc_first (loc_get_by_text _ _ _) => Raise detached
                   | _ => Ret tt
                   end)
         [] ok_response.

Definition page_with_scoped_change : script :=
  Script (fun _ => Ret 1%nat) (fun _ => Ret true)
         (fun l => match l with
                   | loc_first (get_by_text _ true) => Raise not_clickable
                   | _ => Ret tt
                   end)
         [Ret (Some "Sorry. No results found"); Ret (Some "1051661 is available now")]
         ok_response.

(** The texts of the scenario with a query that ends as ambiguous. *)
Definition ambiguous_page : script :=
  page_with_input [Ret (Some "Please try again later")] ok_response.

(** The handlers of the examples of a failing start. *)
Definition slow_site (c : call) (w : nat) : nat * res (answer c) :=
  with_goto (Raise navigation_timeout) (scripted scenario_page) c w.


(** The page of the scenario in a browser that cannot be closed. *)
Definition stuck_browser (c : call) (w : nat) : nat * res (answer c) :=
  with_close (Raise target_closed) (scripted scenario_page) c w.

(** The state in which the first three steps of [open_du_number_modal]
    end on the page [sc], from [initial]. *)
Definition after_setup_click (sc : script) : state nat :=
  fst ((load_page (scripted sc) scenario_cfg ;; dismiss_popup (scripted sc) ;;
        click_setup_my_plan (scripted sc)) initial).

(** The state in which [open_du_number_modal] ends on the page [sc], run
    by [main] from [initial]. *)
Definition after_modal (sc : script) : state nat :=
  fst (open_du_number_modal (scripted sc) scenario_cfg
         (State 0 [Printed "[INFO] Starting du number check...";
                   Called SyncPlaywrightStart; Called Launch; Called NewPage] [])).

(** The visibility answers of [page_with_plain_inputs], by index. *)
Definition plain_inputs_visibility (k : nat) : res bool :=
  match k with
  | 0 => Ret false
  | 1 => Raise detached
  | _ => Ret true
  end.

(* ================================================================= *)
(** ** Notions the specification uses *)

(** Python's ASCII whitespace: space, tab, line feed, vertical tab, form
    feed, carriage return. *)
Definition is_whitespace (c : ascii) : bool :=
  let n := nat_of_ascii c in
  (n =? 32)%nat || ((9 <=? n)%nat && (n <=? 13)%nat).

(** The specification's normalisation: strip all whitespace. *)
Fixpoint spec_strip_whitespace (s : string) : string :=
  match s with
  | EmptyString => EmptyString
  | String c s' =>
      if is_whitespace c then spec_strip_whitespace s'
      else String c (spec_strip_whitespace s')
  end.

(** [s] is empty or consists of spaces only. *)
Fixpoint only_spaces (s : string) : bool :=
  match s with
  | EmptyString => true
  | String c s' => Ascii.eqb c " " && only_spaces s'
  end.

(** [needle] occurs in [hay] as a contiguous piece. *)
Definition substring_of (needle hay : string) : Prop :=
  exists pre post, hay = pre ++ needle ++ post.

(** [s.split("\n")]: the lines of [s]; [cur] is the part of the current
    line read so far. *)
Fixpoint split_lines_aux (cur : string) (s : string) : list string :=
  match s with
  | EmptyString => [cur]
  | String c s' =>
      if Ascii.eqb c (ascii_of_nat 10) then cur :: split_lines_aux "" s'
      else split_lines_aux (cur ++ String c "") s'
  end.

Definition split_lines (s : string) : list string := split_lines_aux "" s.

(** A string without a line feed. *)
Definition no_newline (s : string) : Prop := str_in newline s = false.

(* ================================================================= *)
(** ** Notions used to state what the script does *)

(** From here on [++] is list concatenation unless the arguments are
    known to be strings. *)
Local Open Scope list_scope.

(** The guard of line 55: the credentials count as not set. *)
Definition credentials_unset (cfg : config) : bool :=
  str_falsy (TELEGRAM_BOT_TOKEN cfg) || str_falsy (TELEGRAM_CHAT_ID cfg)
  || str_in "PUT_YOUR" (TELEGRAM_BOT_TOKEN cfg)
  || str_in "PUT_YOUR" (TELEGRAM_CHAT_ID cfg).

(** The endpoint of line 59. *)
Definition telegram_url (cfg : config) : string :=
  ("https://api.telegram.org/bot" ++ TELEGRAM_BOT_TOKEN cfg ++ "/sendMessage")%string.

(** The state after one more event. *)
Definition logged {W} (s : state W) (evs : list event) : state W :=
  State (world s) (events s ++ evs) (available s).

(** The line that closes the events of one query: one of the three
    classifications, or the traceback of the exception that ended it. *)
Definition verdict (sv mf : string) (ev : event) : Prop :=
  ev = Printed ("[INFO] '" ++ sv ++ "' not available (No results found).")
  \/ ev = Printed ("[INFO] '" ++ mf ++ "' appears to be AVAILABLE.")
  \/ ev = Printed ("[WARN] Ambiguous result for '" ++ sv
                   ++ "'. Did not see 'No results found' or the exact fragment.")
  \/ exists e, ev = PrintExc e.

Definition ends_with_verdict (sv mf : string) (evs : list event) : Prop :=
  exists mid last, evs = mid ++ [last] /\ verdict sv mf last.

(** [attempts search_box qs evs]: the events [evs] are one block per
    query of [qs], in order; each block opens with the announcement of
    the query and the click on the search box and closes with a verdict. *)
Inductive attempts (search_box : locator)
    : list (string * string) -> list event -> Prop :=
| attempts_nil : attempts search_box [] []
| attempts_cons sv mf qs block evs :
    ends_with_verdict sv mf block ->
    attempts search_box qs evs ->
    attempts search_box ((sv, mf) :: qs)
      (Printed ("[INFO] Checking number '" ++ sv ++ "'...")
       :: Called (Click search_box false) :: block ++ evs).

(** [m] never changes the observation [f] of the state, whether it
    returns or raises. *)
Definition preserves {W X A} (f : state W -> X) (m : M W A) : Prop :=
  forall s, f (fst (m s)) = f s.

(** [m] always returns normally. *)
Definition never_raises {W A} (m : M W A) : Prop :=
  forall s, exists a, snd (m s) = Ret a.

(** The HTTP calls made so far. *)
Definition http_log {W} (s : state W) : list event := http_calls (events s).

(** [m] only adds events, and every event it adds satisfies [P]. *)
Definition only_emits {W A} (P : event -> Prop) (m : M W A) : Prop :=
  forall s, exists evs, events (fst (m s)) = events s ++ evs /\ Forall P evs.

(** The events of a lookup: [count()], [is_visible()] and printed lines. *)
Definition is_lookup (ev : event) : Prop :=
  match ev with
  | Called (Count _) | Called (IsVisible _) | Printed _ => True
  | _ => False
  end.

(** What the checker may do with the configured numbers [qs]: it types
    nothing but their search texts, presses nothing but Enter, and posts
    nothing. *)
Definition checker_event (qs : list (string * string)) (ev : event) : Prop :=
  match ev with
  | Called (Fill _ v) => In v (map fst qs)
  | Called (Press _ key) => key = "Enter"%string
  | Called (Post _ _ _ _) => False
  | _ => True
  end.

(** Typing and key presses go to the locator [sb] only. *)
Definition uses_handle (sb : locator) (ev : event) : Prop :=
  match ev with
  | Called (Fill l _) | Called (Press l _) => l = sb
  | _ => True
  end.

(** Nothing is typed and no key is pressed. *)
Definition types_nothing (ev : event) : Prop :=
  match ev with
  | Called (Fill _ _) | Called (Press _ _) => False
  | _ => True
  end.

(** Some locator receives all the typing and all the key presses of [m]. *)
Definition one_handle {W A} (m : M W A) : Prop :=
  forall s, exists sb evs,
    events (fst (m s)) = events s ++ evs /\ Forall (uses_handle sb) evs.

(** The decision of lines 198-204 on the text read for a fragment. *)
Definition recorded (mf : string) (t : option string) : bool :=
  negb (str_in "No results found" (or_empty t))
  && str_in (str_replace " " "" mf) (str_replace " " "" (or_empty t)).

(** A bullet line without its ["- "]. *)
Definition bullet_text (line : string) : string :=
  match line with
  | String _ (String _ rest) => rest
  | _ => line
  end.

(* ================================================================= *)
(** ** Facts about the string operations *)

Section StringFacts.

Local Open Scope string_scope.

Lemma append_assoc (a b c : string) : (a ++ b) ++ c = a ++ (b ++ c).
Proof. induction a as [|x a IH]; simpl; [reflexivity | now rewrite IH]. Qed.

Lemma append_empty_r (a : string) : a ++ "" = a.
Proof. induction a as [|x a IH]; simpl; [reflexivity | now rewrite IH]. Qed.

Lemma prefix_append (n post : string) : String.prefix n (n ++ post) = true.
Proof.
  induction n as [|c n IH]; simpl.
  - now destruct post.
  - destruct (ascii_dec c c) as [_|ne]; [exact IH | now elim ne].
Qed.

Lemma prefix_inv (n h : string) :
  String.prefix n h = true -> exists post, h = n ++ post.
Proof.
  revert h; induction n as [|c n IH]; intros h Hp.
  - now exists h.
  - destruct h as [|d h]; simpl in Hp; [discriminate|].
    destruct (ascii_dec c d) as [->|_]; [|discriminate].
    destruct (IH _ Hp) as [post ->]. now exists post.
Qed.

(** The executable test [str_in] decides "occurs as a contiguous piece". *)
Lemma str_in_spec (needle hay : string) :
  str_in needle hay = true <-> substring_of needle hay.
Proof.
  unfold substring_of. split.
  - induction hay as [|c hay IH]; cbn [str_in]; intros H.
    + apply prefix_inv in H as [post H]. now exists "", post.
    + apply orb_true_iff in H as [H|H].
      * apply prefix_inv in H as [post H]. now exists "", post.
      * destruct (IH H) as (pre & post & ->). now exists (String c pre), post.
  - intros (pre & post & ->).
    induction pre as [|c pre IH].
    + change ("" ++ needle ++ post) with (needle ++ post).
      destruct (needle ++ post) as [|c r] eqn:E; cbn [str_in].
      * rewrite <- E. apply prefix_append.
      * rewrite <- E, prefix_append. reflexivity.
    + change (String c pre ++ needle ++ post) with (String c (pre ++ needle ++ post)).
      cbn [str_in]. rewrite IH. apply orb_true_r.
Qed.

Lemma str_in_empty (hay : string) : str_in "" hay = true.
Proof. apply str_in_spec. now exists "", hay. Qed.

Lemma str_replace_append (old : ascii) (new a b : string) :
  str_replace old new (a ++ b) = str_replace old new a ++ str_replace old new b.
Proof.
  induction a as [|c a IH]; simpl; [reflexivity|].
  destruct (Ascii.eqb c old); rewrite IH; [|reflexivity].
  now rewrite append_assoc.
Qed.

Lemma only_spaces_normalized (s : string) :
  only_spaces s = true -> str_replace " " "" s = "".
Proof.
  induction s as [|c s IH]; simpl; [reflexivity|].
  intros H. apply andb_true_iff in H as [Hc Hs].
  rewrite Hc. simpl. auto.
Qed.

(** Removing spaces on both sides keeps a contiguous piece contiguous. *)
Lemma normalized_containment (x fragment pre post : string) :
  str_replace " " "" x = str_replace " " "" fragment ->
  str_in (str_replace " " "" fragment) (str_replace " " "" (pre ++ x ++ post)) = true.
Proof.
  intros E. apply str_in_spec.
  exists (str_replace " " "" pre), (str_replace " " "" post).
  now rewrite !str_replace_append, E.
Qed.

End StringFacts.

(* ================================================================= *)
(** ** Reasoning about statements: what a statement leaves unchanged *)

Section Frame.

Context {W X : Type} (f : state W -> X).

Lemma preserves_ret {A} (a : A) : preserves f (ret a).
Proof. intros s. reflexivity. Qed.

Lemma preserves_raise {A} (e : exn) : preserves f (@raise W A e).
Proof. intros s. reflexivity. Qed.

Lemma preserves_bind {A B} (m : M W A) (k : A -> M W B) :
  preserves f m -> (forall a, preserves f (k a)) -> preserves f (bind m k).
Proof.
  intros Hm Hk s. unfold bind. specialize (Hm s).
  destruct (m s) as [s' [a|e]]; simpl in *; [|exact Hm].
  now rewrite Hk.
Qed.

Lemma preserves_try_except {A} (m : M W A) (h : exn -> M W A) :
  preserves f m -> (forall e, preserves f (h e)) -> preserves f (try_except m h).
Proof.
  intros Hm Hh s. unfold try_except. specialize (Hm s).
  destruct (m s) as [s' [a|e]]; simpl in *; [exact Hm|].
  now rewrite Hh.
Qed.

Lemma preserves_try_except_if {A} (p : exn -> bool) (m : M W A) (h : exn -> M W A) :
  preserves f m -> (forall e, preserves f (h e)) -> preserves f (try_except_if p m h).
Proof.
  intros Hm Hh s. unfold try_except_if. specialize (Hm s).
  destruct (m s) as [s' [a|e]]; simpl in *; [exact Hm|].
  destruct (p e); simpl; [now rewrite Hh | exact Hm].
Qed.

Lemma preserves_try_finally {A} (m : M W A) (fin : M W unit) :
  preserves f m -> preserves f fin -> preserves f (try_finally m fin).
Proof.
  intros Hm Hf s. unfold try_finally. specialize (Hm s).
  destruct (m s) as [s' r]. specialize (Hf s').
  destruct (fin s') as [s'' [u|e]]; simpl in *; congruence.
Qed.

Lemma preserves_for_each {A} (xs : list A) (body : A -> M W unit) :
  (forall x, preserves f (body x)) -> preserves f (for_each xs body).
Proof.
  intros Hb. induction xs as [|x xs IH]; simpl.
  - apply preserves_ret.
  - apply preserves_bind; auto.
Qed.

End Frame.

Section FramePrimitives.

Context {W : Type} (respond : forall c : call, W -> W * res (answer c)).

Lemma emit_available (ev : event) : preserves (@available W) (emit ev).
Proof. intros s. reflexivity. Qed.

Lemma do_call_available (c : call) : preserves (@available W) (do_call respond c).
Proof. intros s. unfold do_call. now destruct (respond c (world s)). Qed.

Lemma get_available_available : preserves (@available W) get_available.
Proof. intros s. reflexivity. Qed.

Lemma http_calls_snoc (evs : list event) (ev : event) :
  http_calls (evs ++ [ev]) = http_calls evs ++ (if is_post ev then [ev] else []).
Proof. unfold http_calls. rewrite List.filter_app. reflexivity. Qed.

Lemma emit_http (ev : event) :
  is_post ev = false -> preserves (@http_log W) (emit ev).
Proof.
  intros H s. unfold http_log. simpl.
  rewrite http_calls_snoc, H. apply app_nil_r.
Qed.

Lemma do_call_http (c : call) :
  is_post (Called c) = false -> preserves (@http_log W) (do_call respond c).
Proof.
  intros H s. unfold do_call, http_log.
  destruct (respond c (world s)) as [w' r]. simpl.
  rewrite http_calls_snoc, H. apply app_nil_r.
Qed.

Lemma get_available_http : preserves (@http_log W) get_available.
Proof. intros s. reflexivity. Qed.

Lemma set_available_http l : preserves (@http_log W) (set_available l).
Proof. intros s. reflexivity. Qed.

Lemma available_append_http x : preserves (@http_log W) (available_append x).
Proof. intros s. reflexivity. Qed.

End FramePrimitives.

(** Splits a statement along its structure down to the primitives. *)
Ltac frame :=
  repeat
    (intros;
     lazymatch goal with
     | |- preserves _ (ret _) => apply preserves_ret
     | |- preserves _ (raise _) => apply preserves_raise
     | |- preserves _ (bind _ _) => apply preserves_bind
     | |- preserves _ (try_except_if _ _ _) => apply preserves_try_except_if
     | |- preserves _ (try_except _ _) => apply preserves_try_except
     | |- preserves _ (try_finally _ _) => apply preserves_try_finally
     | |- preserves _ (for_each _ _) => apply preserves_for_each
     | |- preserves _ (if ?b then _ else _) => destruct b
     | |- preserves _ (match ?x with _ => _ end) => destruct x
     | |- preserves available (do_call ?r ?c) => apply (do_call_available r c)
     | |- preserves http_log (do_call ?r ?c) => apply (do_call_http r c); reflexivity
     | |- preserves available _ =>
         first [ apply emit_available | apply do_call_available
               | apply get_available_available ]
     | |- preserves http_log _ =>
         first [ apply get_available_http | apply set_available_http
               | apply available_append_http
               | (apply emit_http; reflexivity)
               | (apply do_call_http; reflexivity) ]
     end);
  intros.

(* ================================================================= *)
(** ** Splitting a joined message back into lines *)

Lemma no_newline_cons (c : ascii) (s : string) :
  no_newline (String c s) -> Ascii.eqb c (ascii_of_nat 10) = false /\ no_newline s.
Proof.
  unfold no_newline, newline. cbn [str_in String.prefix]. intros H.
  apply orb_false_iff in H as [Hp Hs]. split; [|exact Hs].
  destruct (Ascii.eqb_spec c (ascii_of_nat 10)) as [->|]; [|reflexivity].
  destruct (ascii_dec (ascii_of_nat 10) (ascii_of_nat 10)) as [_|ne]; [|now elim ne].
  now destruct s.
Qed.

Lemma split_lines_aux_last (cur l : string) :
  no_newline l -> split_lines_aux cur l = [(cur ++ l)%string].
Proof.
  revert cur. induction l as [|c l IH]; intros cur H; simpl.
  - now rewrite append_empty_r.
  - apply no_newline_cons in H as [-> H]. rewrite IH by exact H.
    now rewrite append_assoc.
Qed.

Lemma split_lines_aux_line (cur l rest : string) :
  no_newline l ->
  split_lines_aux cur (l ++ newline ++ rest)%string
  = (cur ++ l)%string :: split_lines_aux "" rest.
Proof.
  revert cur. induction l as [|c l IH]; intros cur H; simpl.
  - now rewrite append_empty_r.
  - apply no_newline_cons in H as [-> H]. rewrite IH by exact H.
    now rewrite append_assoc.
Qed.

Lemma split_lines_join (l : string) (ls : list string) :
  Forall no_newline (l :: ls) -> split_lines (join newline (l :: ls)) = l :: ls.
Proof.
  unfold split_lines. revert l. induction ls as [|l' ls IH]; intros l H.
  - apply Forall_cons in H as [H _]. simpl. now rewrite split_lines_aux_last.
  - apply Forall_cons in H as [H H'].
    change (join newline (l :: l' :: ls))
      with (l ++ newline ++ join newline (l' :: ls))%string.
    rewrite split_lines_aux_line by exact H.
    now rewrite IH.
Qed.

(* ================================================================= *)
(** ** Properties of the script *)

Section Properties.

Context {W : Type}.
Variable respond : forall c : call, W -> W * res (answer c).
Variable cfg : config.

Local Abbreviation send_telegram_message := (send_telegram_message respond cfg).
Local Abbreviation get_search_box := (get_search_box respond).
Local Abbreviation scan_candidates := (scan_candidates respond).
Local Abbreviation open_du_number_modal := (open_du_number_modal respond cfg).
Local Abbreviation submit_and_read := (submit_and_read respond).
Local Abbreviation check_one := (check_one respond).
Local Abbreviation check_numbers_try := (check_numbers_try respond cfg).
Local Abbreviation check_numbers_guarded := (check_numbers_guarded respond cfg).
Local Abbreviation check_numbers := (check_numbers respond cfg).
Local Abbreviation main := (main respond cfg).

(** *** What the browser-driving parts leave unchanged *)

Lemma scan_candidates_preserves {X} (f : state W -> X) candidates i n :
  (forall ev, is_post ev = false -> preserves f (emit ev)) ->
  (forall c, is_post (Called c) = false -> preserves f (do_call respond c)) ->
  preserves f (scan_candidates candidates i n).
Proof.
  intros He Hc. revert i. induction n as [|n IH]; intros i; simpl.
  - apply preserves_ret.
  - apply preserves_bind.
    + apply preserves_try_except; [|intros; apply preserves_ret].
      apply preserves_bind; [exact (Hc (IsVisible _) eq_refl)|]. intros [|].
      * apply preserves_bind; [exact (He (Printed _) eq_refl) | intros; apply preserves_ret].
      * apply preserves_ret.
    + intros [el|]; [apply preserves_ret | apply IH].
Qed.

Lemma scan_candidates_available candidates i n :
  preserves (@available W) (scan_candidates candidates i n).
Proof.
  apply scan_candidates_preserves; intros; [apply emit_available | apply do_call_available].
Qed.

Lemma scan_candidates_http candidates i n :
  preserves (@http_log W) (scan_candidates candidates i n).
Proof.
  apply scan_candidates_preserves; intros; [now apply emit_http | now apply do_call_http].
Qed.

Lemma get_search_box_available : preserves (@available W) get_search_box.
Proof. unfold get_search_box. frame; apply scan_candidates_available. Qed.

Lemma get_search_box_http : preserves (@http_log W) get_search_box.
Proof. unfold get_search_box. frame; apply scan_candidates_http. Qed.

Lemma open_du_number_modal_available : preserves (@available W) open_du_number_modal.
Proof. unfold open_du_number_modal. frame. Qed.

Lemma open_du_number_modal_http : preserves (@http_log W) open_du_number_modal.
Proof. unfold open_du_number_modal. frame. Qed.

Lemma submit_and_read_available sb sv : preserves (@available W) (submit_and_read sb sv).
Proof. unfold submit_and_read. frame. Qed.

Lemma check_one_http sb q : preserves (@http_log W) (check_one sb q).
Proof.
  destruct q as [sv mf].
  unfold check_one, submit_and_read, classify. frame.
Qed.

Lemma check_numbers_http : preserves (@http_log W) check_numbers.
Proof.
  unfold check_numbers, check_numbers_guarded,
    check_numbers_try.
  frame; first [apply open_du_number_modal_http | apply get_search_box_http
               | apply check_one_http].
Qed.

(** *** The notifier *)

Lemma send_telegram_message_unset text s :
  credentials_unset cfg = true ->
  send_telegram_message text s
  = (logged s [Printed "[WARN] Telegram credentials not set; skipping notification."],
     Ret tt).
Proof.
  unfold send_telegram_message, credentials_unset. intros ->. reflexivity.
Qed.

Lemma credentials_unset_true :
  TELEGRAM_BOT_TOKEN cfg = ""%string \/ TELEGRAM_CHAT_ID cfg = ""%string \/
  substring_of "PUT_YOUR" (TELEGRAM_BOT_TOKEN cfg) \/
  substring_of "PUT_YOUR" (TELEGRAM_CHAT_ID cfg) ->
  credentials_unset cfg = true.
Proof.
  unfold credentials_unset. intros [E|[E|[E|E]]].
  - rewrite E. reflexivity.
  - rewrite E. simpl. now rewrite orb_true_r.
  - apply str_in_spec in E. rewrite E. now rewrite orb_true_r.
  - apply str_in_spec in E. rewrite E. now rewrite orb_true_r.
Qed.

(** C8. If the bot token or the chat identifier is empty, or contains the
    placeholder sentinel [PUT_YOUR], the notifier only prints the warning:
    the world is not touched and no HTTP call is made. *)
Theorem credentials_unset_skips_sending (text : string) (s : state W) :
  TELEGRAM_BOT_TOKEN cfg = ""%string \/ TELEGRAM_CHAT_ID cfg = ""%string \/
  substring_of "PUT_YOUR" (TELEGRAM_BOT_TOKEN cfg) \/
  substring_of "PUT_YOUR" (TELEGRAM_CHAT_ID cfg) ->
  send_telegram_message text s
  = (logged s [Printed "[WARN] Telegram credentials not set; skipping notification."],
     Ret tt)
  /\ http_log (fst (send_telegram_message text s)) = http_log s.
Proof.
  intros H. apply credentials_unset_true in H.
  rewrite (send_telegram_message_unset _ _ H). split; [reflexivity|].
  unfold http_log, logged. simpl. rewrite http_calls_snoc. apply app_nil_r.
Qed.

Lemma send_telegram_message_set text s :
  credentials_unset cfg = false ->
  send_telegram_message text s
  = match respond (Post (telegram_url cfg) (TELEGRAM_CHAT_ID cfg) text 10) (world s) with
    | (w', Ret resp) =>
        (State w'
           (events s
            ++ [Called (Post (telegram_url cfg) (TELEGRAM_CHAT_ID cfg) text 10);
                Printed (if negb (status_code resp =? 200)%Z
                         then "[ERROR] Failed to send Telegram message: " ++ resp_text resp
                         else "[INFO] Telegram notification sent.")])
           (available s), Ret tt)
    | (w', Raise e) =>
        (State w'
           (events s
            ++ [Called (Post (telegram_url cfg) (TELEGRAM_CHAT_ID cfg) text 10);
                Printed ("[ERROR] Exception while sending Telegram message: "
                         ++ exn_repr e)])
           (available s), Ret tt)
    end.
Proof.
  unfold send_telegram_message, credentials_unset, telegram_url. intros ->.
  unfold try_except, bind, do_call.
  destruct (respond _ (world s)) as [w' [resp|e]]; simpl.
  - destruct (negb (status_code resp =? 200)%Z); simpl;
      now rewrite <- app_assoc.
  - unfold print, emit. simpl. now rewrite <- app_assoc.
Qed.

(** C7. The notifier never raises.  On a send attempt, a transport
    exception and a status other than 200 each end in one [ERROR] line
    after the call, and a normal return. *)
Theorem delivery_failure_is_contained (text : string) (s : state W) :
  never_raises (send_telegram_message text)
  /\ (credentials_unset cfg = false ->
      forall w' e,
        respond (Post (telegram_url cfg) (TELEGRAM_CHAT_ID cfg) text 10) (world s)
        = (w', Raise e) ->
        send_telegram_message text s
        = (State w'
             (events s
              ++ [Called (Post (telegram_url cfg) (TELEGRAM_CHAT_ID cfg) text 10);
                  Printed ("[ERROR] Exception while sending Telegram message: "
                           ++ exn_repr e)])
             (available s), Ret tt))
  /\ (credentials_unset cfg = false ->
      forall w' resp,
        respond (Post (telegram_url cfg) (TELEGRAM_CHAT_ID cfg) text 10) (world s)
        = (w', Ret resp) ->
        status_code resp <> 200%Z ->
        send_telegram_message text s
        = (State w'
             (events s
              ++ [Called (Post (telegram_url cfg) (TELEGRAM_CHAT_ID cfg) text 10);
                  Printed ("[ERROR] Failed to send Telegram message: "
                           ++ resp_text resp)])
             (available s), Ret tt)).
Proof.
  split; [|split].
  - intros s0. destruct (credentials_unset cfg) eqn:U.
    + rewrite (send_telegram_message_unset _ _ U). now exists tt.
    + rewrite (send_telegram_message_set _ _ U).
      destruct (respond _ (world s0)) as [w' [resp|e]]; now exists tt.
  - intros U w' e R. rewrite (send_telegram_message_set _ _ U), R. reflexivity.
  - intros U w' resp R Hs. rewrite (send_telegram_message_set _ _ U), R.
    apply Z.eqb_neq in Hs. rewrite Hs. reflexivity.
Qed.

(** *** One query *)

Lemma classify_unfold (body_text sv mf : string) (s : state W) :
  classify body_text sv mf s
  = if str_in "No results found" body_text then
      (logged s [Printed ("[INFO] '" ++ sv ++ "' not available (No results found).")],
       Ret tt)
    else if str_in (str_replace " " "" mf) (str_replace " " "" body_text) then
      (State (world s)
         (events s ++ [Printed ("[INFO] '" ++ mf ++ "' appears to be AVAILABLE.")])
         (available s ++ [(sv, mf)]),
       Ret tt)
    else
      (logged s [Printed ("[WARN] Ambiguous result for '" ++ sv
                          ++ "'. Did not see 'No results found' or the exact fragment.")],
       Ret tt).
Proof.
  unfold classify.
  destruct (str_in "No results found" body_text); [reflexivity|].
  destruct (str_in _ (str_replace " " "" body_text)); reflexivity.
Qed.

Lemma check_one_read sb sv mf (s s1 : state W) t :
  submit_and_read sb sv s = (s1, Ret t) ->
  check_one sb (sv, mf) s = classify (or_empty t) sv mf s1.
Proof.
  intros H. unfold check_one, try_except, bind. rewrite H.
  rewrite classify_unfold.
  destruct (str_in "No results found" (or_empty t)); [reflexivity|].
  destruct (str_in _ (str_replace " " "" (or_empty t))); reflexivity.
Qed.

Lemma check_one_raise sb sv mf (s s1 : state W) e :
  submit_and_read sb sv s = (s1, Raise e) ->
  check_one sb (sv, mf) s
  = (logged s1 [Printed ("[ERROR] Error while checking '" ++ sv ++ "': " ++ exn_repr e);
                PrintExc e],
     Ret tt).
Proof.
  intros H. unfold check_one, try_except, bind. rewrite H.
  unfold print, print_exc, emit, logged. simpl. now rewrite <- app_assoc.
Qed.

Lemma submit_and_read_keeps_available sb sv (s s1 : state W) r :
  submit_and_read sb sv s = (s1, r) -> available s1 = available s.
Proof.
  intros H. pose proof (submit_and_read_available sb sv s) as F.
  now rewrite H in F.
Qed.

(** C1. When the text read for a query contains [No results found], the
    iteration only prints that the number is not available and leaves
    the list [available] as it was, whatever the fragment is. *)
Theorem no_results_marker_excludes sb sv mf (s s1 : state W) t :
  submit_and_read sb sv s = (s1, Ret t) ->
  substring_of "No results found" (or_empty t) ->
  check_one sb (sv, mf) s
  = (logged s1 [Printed ("[INFO] '" ++ sv ++ "' not available (No results found).")],
     Ret tt)
  /\ available (fst (check_one sb (sv, mf) s)) = available s.
Proof.
  intros H Hm. apply str_in_spec in Hm.
  rewrite (check_one_read _ _ _ _ _ _ H), classify_unfold, Hm.
  split; [reflexivity|]. simpl. eapply submit_and_read_keeps_available, H.
Qed.

Lemma not_substring_of (needle hay : string) :
  ~ substring_of needle hay -> str_in needle hay = false.
Proof.
  intros H. destruct (str_in needle hay) eqn:E; [|reflexivity].
  now apply str_in_spec in E.
Qed.

(** C2, as amended.  Only the space character is removed.  When the
    marker is absent and some piece [x] of the page text equals the
    fragment once the spaces of both are removed, the query is recorded
    as available. *)
Theorem space_insensitive_match sb sv mf (s s1 : state W) t (pre x post : string) :
  submit_and_read sb sv s = (s1, Ret t) ->
  ~ substring_of "No results found" (or_empty t) ->
  or_empty t = (pre ++ x ++ post)%string ->
  str_replace " " "" x = str_replace " " "" mf ->
  check_one sb (sv, mf) s
  = (State (world s1)
       (events s1 ++ [Printed ("[INFO] '" ++ mf ++ "' appears to be AVAILABLE.")])
       (available s ++ [(sv, mf)]),
     Ret tt).
Proof.
  intros H Hm Hb Hx. apply not_substring_of in Hm.
  rewrite (check_one_read _ _ _ _ _ _ H), classify_unfold, Hm.
  rewrite Hb, (normalized_containment _ _ _ _ Hx).
  now rewrite (submit_and_read_keeps_available _ _ _ _ _ H).
Qed.

(** C9. A fragment that is empty or made of spaces only is recorded as
    available whenever the text read does not contain the marker; in
    particular when the read gives [None] or the empty string. *)
Theorem blank_fragment_is_available sb sv mf (s s1 : state W) t :
  only_spaces mf = true ->
  submit_and_read sb sv s = (s1, Ret t) ->
  ~ substring_of "No results found" (or_empty t) \/ t = None \/ t = Some ""%string ->
  check_one sb (sv, mf) s
  = (State (world s1)
       (events s1 ++ [Printed ("[INFO] '" ++ mf ++ "' appears to be AVAILABLE.")])
       (available s ++ [(sv, mf)]),
     Ret tt).
Proof.
  intros Hsp H Hm.
  assert (str_in "No results found" (or_empty t) = false) as Hm'.
  { destruct Hm as [Hm|[->| ->]]; [now apply not_substring_of | reflexivity..]. }
  rewrite (check_one_read _ _ _ _ _ _ H), classify_unfold, Hm'.
  rewrite (only_spaces_normalized _ Hsp), str_in_empty.
  now rewrite (submit_and_read_keeps_available _ _ _ _ _ H).
Qed.

(** *** The loop over the configured numbers *)

(** Runs the external calls of the goal one after the other, in every
    possible way. *)
Ltac run_calls :=
  repeat match goal with
    | |- context [respond ?c ?w] =>
        let w' := fresh "w" in
        let a := fresh "a" in
        let e := fresh "e" in
        destruct (respond c w) as [w' [a|e]]; cbn
    end.

Ltac close_block :=
  lazymatch goal with
  | |- ends_with_verdict _ _ ?block =>
      exists (removelast block), (List.last block (Printed ""));
      split; [reflexivity | cbn; unfold verdict; eauto 6]
  end.

Lemma check_one_outcome sb sv mf (s : state W) :
  exists w' block av,
    check_one sb (sv, mf) s
    = (State w'
         (events s ++ Printed ("[INFO] Checking number '" ++ sv ++ "'...")
                   :: Called (Click sb false) :: block)
         av,
       Ret tt)
    /\ ends_with_verdict sv mf block
    /\ (av = available s \/ av = available s ++ [(sv, mf)]).
Proof.
  unfold check_one, submit_and_read, classify.
  unfold try_except, bind, print, print_exc, emit, do_call, available_append.
  cbn. run_calls;
    repeat match goal with
      | |- context [if ?b then _ else _] => destruct b; cbn
      end;
    rewrite <- ?app_assoc; cbn;
    (eexists _, _, _; split; [reflexivity|]; split; [close_block | auto]).
Qed.

Lemma loop_outcome sb qs (s : state W) :
  exists s' evs l,
    for_each qs (check_one sb) s = (s', Ret tt)
    /\ events s' = events s ++ evs
    /\ attempts sb qs evs
    /\ available s' = available s ++ l
    /\ sublist l qs.
Proof.
  revert s. induction qs as [|[sv mf] qs IH]; intros s.
  - exists s, [], []. rewrite !app_nil_r. repeat split; constructor.
  - destruct (check_one_outcome sb sv mf s) as (w1 & block & av & E & Hv & Hav).
    cbn [for_each]. unfold bind at 1. rewrite E.
    destruct (IH (State w1
                    (events s ++ Printed ("[INFO] Checking number '" ++ sv ++ "'...")
                              :: Called (Click sb false) :: block) av))
      as (s' & evs & l & E' & Hev & Hat & Hl & Hsub).
    cbn [events available] in Hev, Hl.
    destruct Hav as [-> | ->].
    + exists s', (Printed ("[INFO] Checking number '" ++ sv ++ "'...")
                   :: Called (Click sb false) :: block ++ evs), l.
      repeat split; [exact E' | | now constructor | exact Hl | now constructor].
      rewrite Hev, <- app_assoc. reflexivity.
    + exists s', (Printed ("[INFO] Checking number '" ++ sv ++ "'...")
                   :: Called (Click sb false) :: block ++ evs), ((sv, mf) :: l).
      repeat split; [exact E' | | now constructor | | now constructor].
      * rewrite Hev, <- app_assoc. reflexivity.
      * rewrite Hl, <- app_assoc. reflexivity.
Qed.

(** C5. When the steps of a query raise, the iteration catches the
    exception, prints the error and the traceback and leaves [available]
    as it was; the loop goes on with the remaining queries from the state
    so reached; and the loop as a whole never raises: whatever the page
    does, every query is announced, clicked for and closed by a verdict,
    in the configured order. *)
Theorem query_failure_is_isolated sb sv mf qs (s s1 : state W) e :
  submit_and_read sb sv s = (s1, Raise e) ->
  check_one sb (sv, mf) s
  = (logged s1 [Printed ("[ERROR] Error while checking '" ++ sv ++ "': " ++ exn_repr e);
                PrintExc e],
     Ret tt)
  /\ available (fst (check_one sb (sv, mf) s)) = available s
  /\ for_each ((sv, mf) :: qs) (check_one sb) s
     = for_each qs (check_one sb) (fst (check_one sb (sv, mf) s))
  /\ exists s' evs,
       for_each ((sv, mf) :: qs) (check_one sb) s = (s', Ret tt)
       /\ events s' = events s ++ evs
       /\ attempts sb ((sv, mf) :: qs) evs.
Proof.
  intros H. pose proof (check_one_raise sb sv mf s s1 e H) as E.
  split; [exact E|]. split; [|split].
  - rewrite E. simpl. eapply submit_and_read_keeps_available, H.
  - cbn [for_each]. unfold bind at 1. rewrite E. reflexivity.
  - destruct (loop_outcome sb ((sv, mf) :: qs) s) as (s' & evs & l & E' & Hev & Hat & _).
    now exists s', evs.
Qed.

(** *** The whole check *)

(** The guarded block always returns: either by the early [return
    available] of the missing search box, with [available] untouched, or
    by falling through with [available] extended by a subsequence of the
    configured numbers. *)
Lemma check_numbers_guarded_outcome (s : state W) :
  exists s' o,
    check_numbers_guarded s = (s', Ret o)
    /\ http_log s' = http_log s
    /\ match o with
       | Some v => v = available s /\ available s' = available s
       | None => exists l, available s' = available s ++ l
                           /\ sublist l (NUMBERS_TO_CHECK cfg)
       end.
Proof.
  unfold check_numbers_guarded, check_numbers_try, try_except.
  unfold bind at 1.
  pose proof (open_du_number_modal_available s) as F1.
  pose proof (open_du_number_modal_http s) as G1.
  destruct (open_du_number_modal s) as [s1 [[]|e]]; cbn [fst] in F1, G1.
  2:{ eexists _, None. split; [reflexivity|]. cbn. split.
      - unfold http_log in *. cbn. now rewrite !http_calls_snoc, !app_nil_r.
      - exists []. rewrite app_nil_r. split; [exact F1 | apply sublist_nil_l]. }
  unfold bind at 1. unfold print at 1, emit at 1.
  set (s1' := State (world s1) _ (available s1)).
  assert (http_log s1' = http_log s) as G1'.
  { unfold http_log, s1' in *. cbn. now rewrite http_calls_snoc, app_nil_r. }
  unfold bind at 1.
  pose proof (get_search_box_available s1') as F2.
  pose proof (get_search_box_http s1') as G2.
  destruct (get_search_box s1') as [s2 [[sb|]|e]]; cbn [fst] in F2, G2; cbn in F2.
  - unfold bind at 1.
    destruct (loop_outcome sb (NUMBERS_TO_CHECK cfg) s2)
      as (s3 & evs & l & E & _ & _ & Hl & Hsub).
    pose proof (preserves_for_each (@http_log W) (NUMBERS_TO_CHECK cfg) (check_one sb)
                  (check_one_http sb) s2) as G3.
    rewrite E in *. cbn [fst] in G3.
    exists s3, None. split; [reflexivity|]. split; [congruence|].
    exists l. split; [congruence | exact Hsub].
  - unfold bind, print, print_exc, emit, do_call, get_available, ret. cbn.
    destruct (respond BrowserClose (world s2)) as [w' [[]|e]]; cbn.
    + eexists _, (Some _). split; [reflexivity|]. cbn. split; [|split; congruence].
      unfold http_log in *. cbn. rewrite !http_calls_snoc, !app_nil_r. congruence.
    + eexists _, None. split; [reflexivity|]. cbn. split.
      * unfold http_log in *. cbn. rewrite !http_calls_snoc, !app_nil_r. congruence.
      * exists []. rewrite app_nil_r. split; [congruence | apply sublist_nil_l].
  - cbn. eexists _, None. split; [reflexivity|]. cbn. split.
    + unfold http_log in *. cbn. rewrite !http_calls_snoc, !app_nil_r. congruence.
    + exists []. rewrite app_nil_r. split; [congruence | apply sublist_nil_l].
Qed.

(** Names the call of the context that raised the exception of the goal. *)
Ltac blame :=
  match goal with
  | R : respond ?c ?w = (_, Raise ?x) |- exists _ _, _ /\ snd _ = Raise ?x =>
      exists c, w; rewrite R; split; [auto 10 | reflexivity]
  end.

(** [check_numbers] raises only what starting Playwright, launching the
    browser, creating the page, closing the browser in the [finally] or
    leaving the Playwright context raised; otherwise it returns a
    subsequence of the configured numbers. *)
Lemma check_numbers_outcome (s : state W) :
  match check_numbers s with
  | (s', Ret l) => sublist l (NUMBERS_TO_CHECK cfg) /\ available s' = l
  | (s', Raise e) =>
      exists c w, (c = SyncPlaywrightStart \/ c = Launch \/ c = NewPage
                   \/ c = BrowserClose \/ c = SyncPlaywrightStop)
                  /\ snd (respond c w) = Raise e
  end.
Proof.
  unfold check_numbers, set_available, try_finally, bind, do_call, emit,
    get_available.
  cbn.
  destruct (respond SyncPlaywrightStart (world s)) as [w1 [[]|e]] eqn:R1; cbn;
    [|blame].
  destruct (respond Launch w1) as [w2 [[]|e]] eqn:R2; cbn.
  2:{ destruct (respond SyncPlaywrightStop w2) as [w5 [[]|e5]] eqn:R5; cbn; blame. }
  destruct (respond NewPage w2) as [w3 [[]|e]] eqn:R3; cbn.
  2:{ destruct (respond SyncPlaywrightStop w3) as [w5 [[]|e5]] eqn:R5; cbn; blame. }
  match goal with
  | |- context [check_numbers_guarded ?s0] =>
      destruct (check_numbers_guarded_outcome s0) as (s' & o & E & _ & Ho); rewrite E
  end.
  cbn in *.
  destruct (respond BrowserClose (world s')) as [w4 [[]|e4]] eqn:R4; cbn;
    destruct (respond SyncPlaywrightStop w4) as [w5 [[]|e5]] eqn:R5; cbn;
    try blame.
  destruct o as [v|]; cbn.
  - destruct Ho as [-> Hav]. split; [apply sublist_nil_l | exact Hav].
  - destruct Ho as (l & Hl & Hsub). cbn in Hl. split; [now rewrite Hl | reflexivity].
Qed.

(** C10. Whatever the page answers and whichever queries fail, a list
    returned by [check_numbers] is a subsequence of [NUMBERS_TO_CHECK]:
    its entries are configured pairs, each position taken at most once,
    in the configured order. *)
Theorem available_is_subsequence (s s' : state W) (l : list (string * string)) :
  check_numbers s = (s', Ret l) ->
  sublist l (NUMBERS_TO_CHECK cfg).
Proof.
  intros H. pose proof (check_numbers_outcome s) as O. rewrite H in O. apply O.
Qed.

(** *** The entrypoint *)

Lemma main_unfold (s : state W) :
  main s
  = match check_numbers (logged s [Printed "[INFO] Starting du number check..."]) with
    | (s1, Ret []) => (logged s1 [Printed "[INFO] No numbers available today."], Ret tt)
    | (s1, Ret (q :: l)) =>
        send_telegram_message (message (q :: l))
          (logged s1 [Printed "[INFO] At least one number appears available. Sending Telegram alert..."])
    | (s1, Raise e) => (s1, Raise e)
    end.
Proof.
  unfold main, bind at 1. unfold print at 1. unfold emit.
  unfold bind. fold (logged s [Printed "[INFO] Starting du number check..."]).
  destruct (check_numbers _) as [s1 [[|q l]|e]]; reflexivity.
Qed.

Lemma http_log_logged_print (s : state W) (line : string) :
  http_log (logged s [Printed line]) = http_log s.
Proof. unfold http_log, logged. cbn. rewrite http_calls_snoc. apply app_nil_r. Qed.

(** C4. When the checker returns the empty list, the entrypoint prints
    one line and returns: nothing is composed, no HTTP call is made
    anywhere in the run. *)
Theorem empty_available_sends_nothing (s s1 : state W) :
  check_numbers (logged s [Printed "[INFO] Starting du number check..."]) = (s1, Ret []) ->
  main s = (logged s1 [Printed "[INFO] No numbers available today."], Ret tt)
  /\ http_log (fst (main s)) = http_log s.
Proof.
  intros H. rewrite main_unfold, H. split; [reflexivity|].
  pose proof (check_numbers_http (logged s [Printed "[INFO] Starting du number check..."])) as F.
  rewrite H in F. cbn [fst] in *.
  now rewrite http_log_logged_print, F, http_log_logged_print.
Qed.

Lemma message_lines_lookup (available : list (string * string)) i sv mf :
  available !! i = Some (sv, mf) ->
  message_lines available !! S i = Some ("- " ++ mf)%string.
Proof.
  unfold message_lines. simpl. intros H.
  rewrite list_lookup_fmap, H. reflexivity.
Qed.

Lemma message_lines_no_newline (available : list (string * string)) :
  Forall (fun q => no_newline q.2) available ->
  Forall no_newline (message_lines available).
Proof.
  intros H. unfold message_lines. constructor; [reflexivity|].
  induction H as [|[sv mf] l Hq _ IH]; simpl; constructor; [|exact IH].
  simpl in Hq. unfold no_newline in *. change ("- " ++ mf)%string
    with (String "-" (String " " mf)).
  cbn [str_in]. rewrite Hq. unfold newline.
  cbn [String.prefix]. destruct mf; reflexivity.
Qed.

Lemma concat_empty_cons (x : string) (xs : list string) :
  String.concat "" (x :: xs) = (x ++ String.concat "" xs)%string.
Proof. destruct xs; simpl; [now rewrite append_empty_r | reflexivity]. Qed.

Lemma join_flat (sep l : string) (ls : list string) :
  join sep (l :: ls)
  = (l ++ String.concat "" (map (fun x => sep ++ x) ls))%string.
Proof.
  revert l. induction ls as [|l' ls IH]; intros l.
  - simpl. now rewrite append_empty_r.
  - change (join sep (l :: l' :: ls)) with (l ++ sep ++ join sep (l' :: ls))%string.
    rewrite IH. cbn [map]. rewrite concat_empty_cons.
    now rewrite append_assoc.
Qed.

(** C3, as amended.  For a non-empty available list none of whose
    fragments holds a line feed, the lines of the composed message are
    exactly the header followed by one bullet ["- " ++ fragment] per
    entry, in the order of the list, which is the configured order:
    [1 + N] lines.  The entrypoint sends exactly that text. *)
Theorem message_has_header_and_bullets (available : list (string * string)) :
  available <> [] ->
  Forall (fun q => no_newline q.2) available ->
  split_lines (message available)
  = "The following numbers appear to be available on du:"%string
    :: map (fun q => ("- " ++ q.2)%string) available
  /\ length (split_lines (message available)) = S (length available)
  /\ split_lines (message available) !! 0%nat
     = Some "The following numbers appear to be available on du:"%string
  /\ (forall i sv mf,
        available !! i = Some (sv, mf) ->
        split_lines (message available) !! S i = Some ("- " ++ mf)%string)
  /\ message available
     = ("The following numbers appear to be available on du:"
        ++ String.concat "" (map (fun q => newline ++ "- " ++ q.2) available))%string
  /\ (forall s s1,
        check_numbers (logged s [Printed "[INFO] Starting du number check..."])
        = (s1, Ret available) ->
        sublist available (NUMBERS_TO_CHECK cfg)
        /\ main s
           = send_telegram_message (message available)
               (logged s1 [Printed "[INFO] At least one number appears available. Sending Telegram alert..."])).
Proof.
  intros Hne Hnl.
  assert (split_lines (message available) = message_lines available) as Hsplit.
  { apply message_lines_no_newline in Hnl.
    unfold message. unfold message_lines in *. now apply split_lines_join. }
  rewrite Hsplit.
  split; [|split; [|split; [|split; [|split]]]];
    [| | reflexivity | | | intros s s1 H; split].
  - unfold message_lines. f_equal. apply map_ext. now intros [sv mf].
  - unfold message_lines. simpl. now rewrite length_map.
  - intros i sv mf. apply message_lines_lookup.
  - unfold message, message_lines. rewrite join_flat, map_map.
    do 2 f_equal. apply map_ext. now intros [sv mf].
  - pose proof (check_numbers_outcome
                  (logged s [Printed "[INFO] Starting du number check..."])) as O.
    rewrite H in O. apply O.
  - rewrite main_unfold, H.
    destruct available; [now elim Hne | reflexivity].
Qed.

(** *** The search box *)

Lemma scan_candidates_never_raises candidates i n : never_raises (scan_candidates candidates i n).
Proof.
  revert i. induction n as [|n IH]; intros i s; cbn.
  - now exists None.
  - unfold bind, try_except, do_call, print, emit. cbn.
    destruct (respond (IsVisible (loc_nth candidates i)) (world s)) as [w' [[|]|e]]; cbn.
    + now eexists.
    + apply IH.
    + apply IH.
Qed.

Lemma scan_candidates_none candidates i n (s : state W) :
  (forall j w, snd (respond (IsVisible (loc_nth candidates j)) w) <> Ret true) ->
  snd (scan_candidates candidates i n s) = Ret None.
Proof.
  intros Hv. revert i s. induction n as [|n IH]; intros i s; cbn; [reflexivity|].
  unfold bind, try_except, do_call, print, emit. cbn.
  specialize (Hv i (world s)).
  destruct (respond (IsVisible (loc_nth candidates i)) (world s)) as [w' [[|]|e]]; cbn.
  - now elim Hv.
  - apply IH.
  - apply IH.
Qed.

(** The locator raises only what the [count()] of the generic scan
    raised: that call is the one lookup made outside a [try]. *)
Lemma get_search_box_raises_only_from_scan_count (s s' : state W) e :
  get_search_box s = (s', Raise e) ->
  exists w,
    snd (respond (Count (page_locator "input[type='text'], input[type='search']")) w)
    = Raise e.
Proof.
  unfold get_search_box, bind, try_except, do_call, print, emit. cbn.
  destruct (respond (Count (get_by_placeholder _)) _) as [w1 [[|c1]|e1]]; cbn;
    try discriminate;
    (destruct (respond (Count (get_by_role _ _)) _) as [w2 [[|c2]|e2]]; cbn;
     try discriminate;
     (destruct (respond (Count (page_locator _)) ?[w]) as [w3 [n|e3]] eqn:R3; cbn;
      [ match goal with
        | |- context [scan_candidates ?c ?i ?n ?s0] =>
            destruct (scan_candidates_never_raises c i n s0) as [o Ho];
            destruct (scan_candidates c i n s0) as [s4 r4]; cbn in Ho; subst r4
        end; discriminate
      | intros [= <- <-]; eexists; rewrite R3; reflexivity ])).
Qed.

(** When the placeholder and role lookups find nothing or raise, the
    scan's [count()] answers and no candidate answers visible, the
    locator returns [None]. *)
Lemma get_search_box_not_found (s : state W) :
  (forall w c, snd (respond (Count (get_by_placeholder "Search for a number")) w)
               <> Ret (S c)) ->
  (forall w c, snd (respond (Count (get_by_role "textbox" "Search for a number")) w)
               <> Ret (S c)) ->
  (forall w e,
     snd (respond (Count (page_locator "input[type='text'], input[type='search']")) w)
     <> Raise e) ->
  (forall j w,
     snd (respond (IsVisible
                     (loc_nth (page_locator "input[type='text'], input[type='search']") j)) w)
     <> Ret true) ->
  snd (get_search_box s) = Ret None.
Proof.
  intros H1 H2 H3 H4.
  unfold get_search_box, bind, try_except, do_call, print, emit. cbn.
  specialize (H1 (world s)).
  destruct (respond (Count (get_by_placeholder _)) _) as [w1 [[|c1]|e1]]; cbn in *;
    try (now elim (H1 c1));
    (specialize (H2 w1);
     destruct (respond (Count (get_by_role _ _)) _) as [w2 [[|c2]|e2]]; cbn in *;
     try (now elim (H2 c2));
     (specialize (H3 w2);
      destruct (respond (Count (page_locator _)) w2) as [w3 [n|e3]]; cbn in *;
      [ match goal with
        | |- context [scan_candidates ?c ?i ?n ?s0] =>
            pose proof (scan_candidates_none c i n s0 H4) as Hs;
            destruct (scan_candidates c i n s0) as [s4 r4]; cbn in Hs; subst r4
        end; reflexivity
      | now elim (H3 e3) ])).
Qed.

(** *** A run without a search box *)

Lemma guarded_without_search_box (s s1 s2 : state W) r :
  open_du_number_modal s = (s1, Ret tt) ->
  get_search_box (logged s1 [Printed "[INFO] Locating search input in modal..."]) = (s2, r) ->
  (forall sb, r <> Ret (Some sb)) ->
  exists s' o,
    check_numbers_guarded s = (s', Ret o)
    /\ available s' = available s
    /\ (forall v, o = Some v -> v = available s).
Proof.
  intros E1 E2 Hr.
  pose proof (open_du_number_modal_available s) as F1. rewrite E1 in F1.
  pose proof (get_search_box_available
                (logged s1 [Printed "[INFO] Locating search input in modal..."])) as F2.
  rewrite E2 in F2. cbn in F1, F2.
  unfold check_numbers_guarded, check_numbers_try, try_except.
  unfold bind at 1. rewrite E1.
  unfold bind at 1.
  change (print ["[INFO] Locating search input in modal..."%string] s1)
    with (logged s1 [Printed "[INFO] Locating search input in modal..."], @Ret unit tt).
  lazy beta iota. unfold bind at 1. rewrite E2.
  destruct r as [[sb|]|e].
  - now elim (Hr sb).
  - unfold bind, print, print_exc, emit, do_call, get_available, ret. cbn.
    destruct (respond BrowserClose (world s2)) as [w' [[]|e]]; cbn.
    + eexists _, (Some _). split; [reflexivity|]. cbn.
      split; [congruence|]. intros v [= <-]. congruence.
    + eexists _, None. split; [reflexivity|]. cbn.
      split; [congruence | discriminate].
  - cbn. eexists _, None. split; [reflexivity|]. cbn.
    split; [congruence | discriminate].
Qed.

(** Once the browser is up and the modal open, a locator that returns
    no handle, by [None] or by raising, ends the run quietly, provided
    closing the browser and leaving the Playwright context do not raise:
    the checker returns the empty list, the entrypoint returns normally
    and no HTTP call is made. *)
Lemma missing_search_box_is_contained (s s1 s2 : state W) w1 w2 w3 r :
  (forall w, snd (respond BrowserClose w) = Ret tt) ->
  (forall w, snd (respond SyncPlaywrightStop w) = Ret tt) ->
  respond SyncPlaywrightStart (world s) = (w1, Ret tt) ->
  respond Launch w1 = (w2, Ret tt) ->
  respond NewPage w2 = (w3, Ret tt) ->
  open_du_number_modal
    (State w3
       (events s ++ [Printed "[INFO] Starting du number check...";
                     Called SyncPlaywrightStart; Called Launch; Called NewPage])
       [])
  = (s1, Ret tt) ->
  get_search_box (logged s1 [Printed "[INFO] Locating search input in modal..."]) = (s2, r) ->
  (forall sb, r <> Ret (Some sb)) ->
  exists s1' s',
    check_numbers (logged s [Printed "[INFO] Starting du number check..."]) = (s1', Ret [])
    /\ main s = (s', Ret tt)
    /\ http_log s' = http_log s.
Proof.
  intros Hclose Hstop R1 R2 R3 E1 E2 Hr.
  destruct (guarded_without_search_box _ _ _ _ E1 E2 Hr) as (sg & o & Eg & Hav & Ho).
  assert (exists s1', check_numbers (logged s [Printed "[INFO] Starting du number check..."])
                      = (s1', Ret [])) as [s1' Ec].
  { unfold check_numbers, set_available, try_finally, bind, do_call, emit,
      get_available.
    cbn. rewrite R1. cbn. rewrite R2. cbn. rewrite R3. cbn.
    rewrite <- !app_assoc. cbn. rewrite Eg. cbn. cbn in Hav, Ho.
    specialize (Hclose (world sg)).
    destruct (respond BrowserClose (world sg)) as [w4 r4]. cbn in Hclose. subst r4. cbn.
    specialize (Hstop w4).
    destruct (respond SyncPlaywrightStop w4) as [w5 r5]. cbn in Hstop. subst r5. cbn.
    destruct o as [v|]; cbn; [rewrite (Ho v eq_refl) | rewrite Hav]; eexists; reflexivity. }
  exists s1'. eexists. split; [exact Ec|]. rewrite main_unfold, Ec.
  split; [reflexivity|].
  pose proof (check_numbers_http (logged s [Printed "[INFO] Starting du number check..."])) as F.
  rewrite Ec in F. cbn [fst] in F.
  now rewrite http_log_logged_print, F, http_log_logged_print.
Qed.

End Properties.

(* ================================================================= *)
(** ** Reasoning about statements: which events a statement adds *)

Section Emits.

Context {W : Type} (P : event -> Prop).

Lemma only_emits_ret {A} (a : A) : only_emits P (@ret W A a).
Proof. intros s. exists []. now rewrite app_nil_r. Qed.

Lemma only_emits_raise {A} (e : exn) : only_emits P (@raise W A e).
Proof. intros s. exists []. now rewrite app_nil_r. Qed.

Lemma only_emits_state {A} (m : M W A) :
  (forall s, events (fst (m s)) = events s) -> only_emits P m.
Proof. intros H s. exists []. now rewrite app_nil_r. Qed.

Lemma only_emits_bind {A B} (m : M W A) (k : A -> M W B) :
  only_emits P m -> (forall a, only_emits P (k a)) -> only_emits P (bind m k).
Proof.
  intros Hm Hk s. unfold bind. destruct (Hm s) as (evs & E & F).
  destruct (m s) as [s' [a|e]]; cbn [fst] in *.
  - destruct (Hk a s') as (evs' & E' & F'). exists (evs ++ evs').
    rewrite E', E, app_assoc. split; [reflexivity | now apply Forall_app].
  - now exists evs.
Qed.

Lemma only_emits_try_except {A} (m : M W A) (h : exn -> M W A) :
  only_emits P m -> (forall e, only_emits P (h e)) -> only_emits P (try_except m h).
Proof.
  intros Hm Hh s. unfold try_except. destruct (Hm s) as (evs & E & F).
  destruct (m s) as [s' [a|e]]; cbn [fst] in *.
  - now exists evs.
  - destruct (Hh e s') as (evs' & E' & F'). exists (evs ++ evs').
    rewrite E', E, app_assoc. split; [reflexivity | now apply Forall_app].
Qed.

Lemma only_emits_try_except_if {A} (p : exn -> bool) (m : M W A) (h : exn -> M W A) :
  only_emits P m -> (forall e, only_emits P (h e)) -> only_emits P (try_except_if p m h).
Proof.
  intros Hm Hh s. unfold try_except_if. destruct (Hm s) as (evs & E & F).
  destruct (m s) as [s' [a|e]]; cbn [fst] in *.
  - now exists evs.
  - destruct (p e); cbn [fst]; [|now exists evs].
    destruct (Hh e s') as (evs' & E' & F'). exists (evs ++ evs').
    rewrite E', E, app_assoc. split; [reflexivity | now apply Forall_app].
Qed.

Lemma only_emits_try_finally {A} (m : M W A) (fin : M W unit) :
  only_emits P m -> only_emits P fin -> only_emits P (try_finally m fin).
Proof.
  intros Hm Hf s. unfold try_finally. destruct (Hm s) as (evs & E & F).
  destruct (m s) as [s' r]. cbn [fst] in *.
  destruct (Hf s') as (evs' & E' & F').
  exists (evs ++ evs'). split; [|now apply Forall_app].
  destruct (fin s') as [s'' [u|e]]; cbn [fst] in *; now rewrite E', E, app_assoc.
Qed.

Lemma only_emits_for_each {A} (xs : list A) (body : A -> M W unit) :
  (forall x, In x xs -> only_emits P (body x)) -> only_emits P (for_each xs body).
Proof.
  induction xs as [|x xs IH]; intros Hb; cbn [for_each].
  - apply only_emits_ret.
  - apply only_emits_bind; [apply Hb; now left|].
    intros _. apply IH. intros y Hy. apply Hb. now right.
Qed.

Lemma only_emits_emit (ev : event) : P ev -> only_emits P (@emit W ev).
Proof. intros H s. exists [ev]. split; [reflexivity | now repeat constructor]. Qed.

Lemma only_emits_do_call respond (c : call) :
  P (Called c) -> only_emits P (@do_call W respond c).
Proof.
  intros H s. exists [Called c]. unfold do_call.
  destruct (respond c (world s)) as [w' r].
  split; [reflexivity | now repeat constructor].
Qed.

End Emits.

(** Splits a statement along its structure down to the events it adds. *)
Ltac emits :=
  repeat
    (intros;
     lazymatch goal with
     | |- only_emits _ (ret _) => apply only_emits_ret
     | |- only_emits _ (raise _) => apply only_emits_raise
     | |- only_emits _ (bind _ _) => apply only_emits_bind
     | |- only_emits _ (try_except_if _ _ _) => apply only_emits_try_except_if
     | |- only_emits _ (try_except _ _) => apply only_emits_try_except
     | |- only_emits _ (try_finally _ _) => apply only_emits_try_finally
     | |- only_emits _ (if ?b then _ else _) => destruct b
     | |- only_emits _ (match ?x with _ => _ end) => destruct x
     | |- only_emits ?P (do_call ?r ?c) =>
         apply (only_emits_do_call P r c); first [exact I | reflexivity]
     | |- only_emits _ (emit _) => apply only_emits_emit; exact I
     | |- only_emits _ (print _) => apply only_emits_emit; exact I
     | |- only_emits _ (print_exc _) => apply only_emits_emit; exact I
     | |- only_emits _ get_available => apply only_emits_state; reflexivity
     | |- only_emits _ (set_available _) => apply only_emits_state; reflexivity
     | |- only_emits _ (available_append _) => apply only_emits_state; reflexivity
     end);
  intros.

(* ================================================================= *)
(** ** Further properties of the script *)

Section MoreProperties.

Context {W : Type}.
Variable respond : forall c : call, W -> W * res (answer c).
Variable cfg : config.

Local Abbreviation send_telegram_message := (send_telegram_message respond cfg).
Local Abbreviation get_search_box := (get_search_box respond).
Local Abbreviation scan_candidates := (scan_candidates respond).
Local Abbreviation open_du_number_modal := (open_du_number_modal respond cfg).
Local Abbreviation submit_and_read := (submit_and_read respond).
Local Abbreviation check_one := (check_one respond).
Local Abbreviation check_numbers_try := (check_numbers_try respond cfg).
Local Abbreviation check_numbers_guarded := (check_numbers_guarded respond cfg).
Local Abbreviation check_numbers := (check_numbers respond cfg).
Local Abbreviation main := (main respond cfg).
Local Abbreviation load_page := (load_page respond cfg).
Local Abbreviation dismiss_popup := (dismiss_popup respond).
Local Abbreviation click_setup_my_plan := (click_setup_my_plan respond).
Local Abbreviation click_change := (click_change respond).
Local Abbreviation modal_should_be_open := (modal_should_be_open respond).

(** *** What the locator and the checker never do *)

Lemma scan_candidates_only_looks candidates i n :
  only_emits is_lookup (scan_candidates candidates i n).
Proof.
  revert i. induction n as [|n IH]; intros i; cbn.
  - apply only_emits_ret.
  - emits. apply IH.
Qed.

Lemma only_emits_weaken {A} (P Q : event -> Prop) (m : M W A) :
  (forall ev, P ev -> Q ev) -> only_emits P m -> only_emits Q m.
Proof.
  intros HPQ Hm s. destruct (Hm s) as (evs & E & F). exists evs.
  split; [exact E | eapply Forall_impl; eauto].
Qed.

(** X6. The locator only looks: whatever the page answers, the calls of
    [get_search_box] are [count()] and [is_visible()] calls; it never
    clicks, types, navigates or posts. *)
Theorem locator_only_looks : only_emits is_lookup get_search_box.
Proof. unfold get_search_box. emits. apply scan_candidates_only_looks. Qed.

Lemma is_lookup_checker_event qs ev : is_lookup ev -> checker_event qs ev.
Proof. destruct ev as [[]| |]; cbn; tauto. Qed.

Lemma get_search_box_checker_event qs : only_emits (checker_event qs) get_search_box.
Proof.
  eapply only_emits_weaken; [apply is_lookup_checker_event|].
  unfold get_search_box. emits. apply scan_candidates_only_looks.
Qed.

Lemma check_one_checker_event sb q qs :
  In q qs -> only_emits (checker_event qs) (check_one sb q).
Proof.
  intros Hq. destruct q as [sv mf].
  unfold check_one, submit_and_read, classify. emits.
  apply (only_emits_do_call _ _ (Fill sb sv)). cbn.
  apply in_map_iff. now exists (sv, mf).
Qed.

Lemma check_numbers_guarded_checker_event :
  only_emits (checker_event (NUMBERS_TO_CHECK cfg)) check_numbers_guarded.
Proof.
  unfold check_numbers_guarded, check_numbers_try.
  emits.
  - unfold open_du_number_modal. emits.
  - apply get_search_box_checker_event.
  - apply only_emits_for_each. intros q Hq. now apply check_one_checker_event.
Qed.

(** X9. Whatever the page answers, [check_numbers] types nothing but the
    configured search texts into the page, presses no key but Enter and
    makes no HTTP call; its events are only added to those of the state
    it starts from. *)
Theorem checker_types_only_configured_numbers :
  only_emits (checker_event (NUMBERS_TO_CHECK cfg)) check_numbers.
Proof.
  unfold check_numbers. emits. apply check_numbers_guarded_checker_event.
Qed.

(** *** The decision on one query *)

(** X7. One iteration never raises, and it records the pair exactly when the
    read succeeds, the text read has no marker and holds the fragment
    once the spaces of both are removed; a failed read, a marker and an
    ambiguous text all leave [available] as it was. *)
Theorem query_recorded_exactly_when sb sv mf (s : state W) :
  snd (check_one sb (sv, mf) s) = Ret tt
  /\ available (fst (check_one sb (sv, mf) s))
     = match submit_and_read sb sv s with
       | (_, Ret t) => if recorded mf t then available s ++ [(sv, mf)] else available s
       | (_, Raise _) => available s
       end.
Proof.
  destruct (submit_and_read sb sv s) as [s1 [t|e]] eqn:E.
  - pose proof (submit_and_read_keeps_available _ _ _ _ _ _ E) as Hav.
    rewrite (check_one_read _ _ _ mf _ _ _ E), classify_unfold. unfold recorded.
    destruct (str_in "No results found" (or_empty t)); cbn; [auto|].
    destruct (str_in _ (str_replace " " "" (or_empty t))); cbn; rewrite ?Hav; auto.
  - pose proof (submit_and_read_keeps_available _ _ _ _ _ _ E) as Hav.
    rewrite (check_one_raise _ _ _ mf _ _ _ E). cbn. auto.
Qed.

(** *** Reading the message back *)

Lemma map_bullet_text (l : list (string * string)) :
  map bullet_text (map (fun '(_, mf) => ("- " ++ mf)%string) l) = map snd l.
Proof.
  induction l as [|[sv mf] l IH]; [reflexivity|].
  cbn [map]. rewrite IH. reflexivity.
Qed.

(** X15. When no fragment holds a line feed, the fragments of the available
    list can be read back from the message, in order: drop the header
    line and the two characters in front of each bullet. *)
Theorem fragments_read_back_from_message (l : list (string * string)) :
  Forall (fun q => no_newline q.2) l ->
  map bullet_text (tail (split_lines (message l))) = map snd l.
Proof.
  intros H. apply message_lines_no_newline in H.
  unfold message. unfold message_lines in *.
  rewrite split_lines_join by exact H. cbn [tail]. apply map_bullet_text.
Qed.

(** *** The order of the lookup strategies *)

(** X4. A placeholder match wins: after one [count()] call the locator
    returns its first match and tries nothing else.  When the placeholder
    lookup finds nothing or raises, a role match is returned the same
    way after the second call. *)
Theorem search_box_strategy_order (s : state W) :
  (forall w1 c,
     respond (Count (get_by_placeholder "Search for a number")) (world s) = (w1, Ret (S c)) ->
     get_search_box s
     = (State w1
          (events s ++ [Called (Count (get_by_placeholder "Search for a number"));
                        Printed "[DEBUG] Found search box via placeholder."])
          (available s),
        Ret (Some (loc_first (get_by_placeholder "Search for a number")))))
  /\ (forall w1 r1 w2 c,
        respond (Count (get_by_placeholder "Search for a number")) (world s) = (w1, r1) ->
        (forall c1, r1 <> Ret (S c1)) ->
        respond (Count (get_by_role "textbox" "Search for a number")) w1 = (w2, Ret (S c)) ->
        get_search_box s
        = (State w2
             (events s ++ [Called (Count (get_by_placeholder "Search for a number"));
                           Called (Count (get_by_role "textbox" "Search for a number"));
                           Printed "[DEBUG] Found search box via role/name."])
             (available s),
           Ret (Some (loc_first (get_by_role "textbox" "Search for a number"))))).
Proof.
  split.
  - intros w1 c R. unfold get_search_box, bind, try_except, do_call, print, emit.
    cbn. rewrite R. cbn. now rewrite <- app_assoc.
  - intros w1 r1 w2 c R1 Hr1 R2.
    unfold get_search_box, bind, try_except, do_call, print, emit.
    cbn. rewrite R1. destruct r1 as [[|c1]|e1]; cbn.
    + rewrite R2. cbn. now rewrite <- !app_assoc.
    + now elim (Hr1 c1).
    + rewrite R2. cbn. now rewrite <- !app_assoc.
Qed.

Lemma scan_candidates_first_visible candidates (vis : nat -> res bool) :
  (forall k w, snd (respond (IsVisible (loc_nth candidates k)) w) = vis k) ->
  forall n i j (s : state W),
    (i <= j < i + n)%nat ->
    vis j = Ret true ->
    (forall k, (i <= k < j)%nat -> vis k <> Ret true) ->
    snd (scan_candidates candidates i n s) = Ret (Some (loc_nth candidates j)).
Proof.
  intros Hvis. induction n as [|n IH]; intros i j s Hj Hvj Hbefore; [lia|].
  cbn. unfold bind, try_except, do_call, print, emit. cbn.
  pose proof (Hvis i (world s)) as Hi.
  destruct (respond (IsVisible (loc_nth candidates i)) (world s)) as [w' r].
  cbn in Hi. subst r.
  destruct (decide (i = j)) as [->|Hne].
  - rewrite Hvj. reflexivity.
  - assert (vis i <> Ret true) as Hni by (apply Hbefore; lia).
    destruct (vis i) as [[|]|e]; cbn; [now elim Hni | |];
      apply IH; try assumption; try lia; intros k Hk; apply Hbefore; lia.
Qed.

(** X5. When the placeholder and role lookups find nothing, the generic scan
    returns the first candidate, in index order, whose [is_visible()]
    answers true; a candidate that answers false, or whose check raises,
    is passed over. *)
Theorem scan_returns_first_visible (vis : nat -> res bool) (n j : nat) (s : state W) :
  (forall w c, snd (respond (Count (get_by_placeholder "Search for a number")) w)
               <> Ret (S c)) ->
  (forall w c, snd (respond (Count (get_by_role "textbox" "Search for a number")) w)
               <> Ret (S c)) ->
  (forall w, snd (respond (Count text_inputs) w) = Ret n) ->
  (forall k w, snd (respond (IsVisible (loc_nth text_inputs k)) w) = vis k) ->
  (j < n)%nat ->
  vis j = Ret true ->
  (forall k, (k < j)%nat -> vis k <> Ret true) ->
  snd (get_search_box s) = Ret (Some (loc_nth text_inputs j)).
Proof.
  intros H1 H2 H3 Hvis Hj Hvj Hbefore.
  unfold get_search_box, bind, try_except, do_call, print, emit. cbn.
  specialize (H1 (world s)).
  destruct (respond (Count (get_by_placeholder _)) _) as [w1 [[|c1]|e1]]; cbn in *;
    try (now elim (H1 c1));
    (specialize (H2 w1);
     destruct (respond (Count (get_by_role _ _)) _) as [w2 [[|c2]|e2]]; cbn in *;
     try (now elim (H2 c2));
     (specialize (H3 w2); fold text_inputs;
      destruct (respond (Count text_inputs) w2) as [w3 r3]; cbn in H3; subst r3; cbn;
      match goal with
      | |- context [scan_candidates ?c ?i ?m ?s0] =>
          pose proof (scan_candidates_first_visible c vis Hvis m i j s0
                        ltac:(lia) Hvj ltac:(intros; apply Hbefore; lia)) as Hs;
          destruct (scan_candidates c i m s0) as [s4 r4]; cbn in Hs; subst r4
      end; reflexivity)).
Qed.

(** *** Opening the modal *)

(** Answers the external calls of the goal one after the other, in
    every possible way, keeping each answer as a hypothesis. *)
Ltac answer_calls :=
  repeat match goal with
    | |- context [respond ?c ?w] =>
        let w' := fresh "w" in
        let a := fresh "a" in
        let e := fresh "e" in
        let R := fresh "R" in
        destruct (respond c w) as [w' [a|e]] eqn:R; cbn
    | |- context [is_PlaywrightTimeoutError ?e] =>
        let T := fresh "T" in
        destruct (is_PlaywrightTimeoutError e) eqn:T; cbn
    | |- context [match ?c with O => _ | S _ => _ end] => is_var c; destruct c; cbn
    end.

(** [open_du_number_modal] is its five steps in a row. *)
Lemma open_du_number_modal_steps (s : state W) :
  open_du_number_modal s
  = (load_page ;; dismiss_popup ;; click_setup_my_plan ;; click_change ;;
     modal_should_be_open) s.
Proof.
  unfold open_du_number_modal, load_page, dismiss_popup, click_setup_my_plan,
    click_change, modal_should_be_open, exact_change_link, scoped_change_link.
  unfold bind, try_except, try_except_if, do_call, print, emit, ret, raise.
  cbn. answer_calls; reflexivity.
Qed.

(** X1. A navigation timeout is not fatal: [open_du_number_modal] prints a
    warning with the page's URL, waits, and goes on with the popup step
    from there.  Any other exception of [page.goto] leaves the function
    at once. *)
Theorem navigation_timeout_is_not_fatal (s : state W) w1 e :
  respond (Goto (DU_URL cfg) 30000) (world s) = (w1, Raise e) ->
  (is_PlaywrightTimeoutError e = false ->
   open_du_number_modal s
   = (State w1
        (events s ++ [Printed "[INFO] Opening du page...";
                      Called (Goto (DU_URL cfg) 30000)])
        (available s),
      Raise e))
  /\ (is_PlaywrightTimeoutError e = true ->
      forall w2 url w3,
        respond PageUrl w1 = (w2, Ret url) ->
        respond (WaitForTimeout 3000) w2 = (w3, Ret tt) ->
        open_du_number_modal s
        = (dismiss_popup ;; click_setup_my_plan ;; click_change ;; modal_should_be_open)
            (State w3
               (events s
                ++ [Printed "[INFO] Opening du page...";
                    Called (Goto (DU_URL cfg) 30000);
                    Called PageUrl;
                    Printed ("[WARN] Page load timeout, continuing anyway (URL: "
                             ++ url ++ ")");
                    Called (WaitForTimeout 3000)])
               (available s))).
Proof.
  intros R. split.
  - intros T. rewrite open_du_number_modal_steps. unfold bind at 1.
    unfold load_page, bind, try_except_if, do_call, print, emit. cbn.
    rewrite R. cbn. rewrite T. cbn. now rewrite <- app_assoc.
  - intros T w2 url w3 R2 R3. rewrite open_du_number_modal_steps. unfold bind at 1.
    unfold load_page, bind at 1 2 3, try_except_if, do_call, print, emit. cbn.
    rewrite R. cbn. rewrite T. cbn. rewrite R2. cbn. rewrite R3. cbn.
    now rewrite <- !app_assoc.
Qed.

Lemma after_three_steps {A B C D} (a : M W A) (b : M W B) (c : M W C) (k : M W D)
    (s s1 : state W) (x : C) :
  (a ;; b ;; c) s = (s1, Ret x) ->
  (a ;; b ;; c ;; k) s = k s1.
Proof.
  unfold bind. destruct (a s) as [sa [xa|ea]]; [|discriminate].
  destruct (b sa) as [sb [xb|eb]]; [|discriminate].
  destruct (c sb) as [sc [xc|ec]]; [|discriminate].
  now intros [= -> _].
Qed.

(** X2. The "Change" link has a fallback.  When the exact click raises, the
    scoped click is tried: if it succeeds the function goes on to its last
    step; if it raises too, the function raises the second exception
    after a warning for the first and an error line for the second. *)
Theorem change_click_falls_back (s s1 : state W) w2 e :
  (load_page ;; dismiss_popup ;; click_setup_my_plan) s = (s1, Ret tt) ->
  respond (Click exact_change_link true) (world s1) = (w2, Raise e) ->
  (forall w3,
     respond (Click scoped_change_link true) w2 = (w3, Ret tt) ->
     open_du_number_modal s
     = modal_should_be_open
         (State w3
            (events s1
             ++ [Printed "[INFO] Clicking 'Change' on the number card...";
                 Called (Click exact_change_link true);
                 Printed ("[WARN] Exact 'Change' click failed (" ++ exn_str e
                          ++ "). Trying scoped locator...");
                 Called (Click scoped_change_link true)])
            (available s1)))
  /\ (forall w3 e2,
        respond (Click scoped_change_link true) w2 = (w3, Raise e2) ->
        open_du_number_modal s
        = (State w3
             (events s1
              ++ [Printed "[INFO] Clicking 'Change' on the number card...";
                  Called (Click exact_change_link true);
                  Printed ("[WARN] Exact 'Change' click failed (" ++ exn_str e
                           ++ "). Trying scoped locator...");
                  Called (Click scoped_change_link true);
                  Printed ("[ERROR] Could not click 'Change' on card: " ++ exn_repr e2)])
             (available s1),
           Raise e2)).
Proof.
  intros H R. split.
  - intros w3 R3. rewrite open_du_number_modal_steps.
    rewrite (after_three_steps _ _ _ _ _ _ _ H). unfold bind at 1.
    unfold click_change, bind, try_except, do_call, print, emit, raise. cbn.
    rewrite R. cbn. rewrite R3. cbn. now rewrite <- !app_assoc.
  - intros w3 e2 R3. rewrite open_du_number_modal_steps.
    rewrite (after_three_steps _ _ _ _ _ _ _ H). unfold bind at 1.
    unfold click_change, bind, try_except, do_call, print, emit, raise. cbn.
    rewrite R. cbn. rewrite R3. cbn. now rewrite <- !app_assoc.
Qed.

(** X3. The popup step never raises, and [open_du_number_modal] raises only
    what one of its fatal steps raised: a [page.goto] failure other than
    a timeout, [page.url], a three-second wait, the click on "Setup my
    plan" or the scoped click on "Change".  An exception of the popup
    lookup or of the exact "Change" click never leaves the function. *)
Theorem modal_raises_only_from_fatal_steps :
  never_raises dismiss_popup
  /\ forall (s s' : state W) e,
       open_du_number_modal s = (s', Raise e) ->
       exists c w,
         snd (respond c w) = Raise e
         /\ ((c = Goto (DU_URL cfg) 30000 /\ is_PlaywrightTimeoutError e = false)
             \/ c = PageUrl
             \/ c = WaitForTimeout 3000
             \/ c = Click (loc_first (get_by_text "Setup my plan" false)) false
             \/ c = Click scoped_change_link true).
Proof.
  split.
  - intros s. unfold dismiss_popup, bind, try_except, do_call, print, emit, ret.
    cbn. answer_calls; now eexists.
  - intros s s' e. unfold open_du_number_modal, scoped_change_link.
    unfold bind, try_except, try_except_if, do_call, print, emit, ret, raise.
    cbn. answer_calls; intros H; try discriminate H;
      injection H as _ <-;
      match goal with
      | R : respond ?c ?w = (_, Raise ?x) |- exists _ _, snd _ = Raise ?x /\ _ =>
          exists c, w; rewrite R; split; [reflexivity | first [congruence | auto 10]]
      end.
Qed.

(** *** Starting and closing the browser *)

(** Names the call that raised the exception of the goal. *)
Ltac blame_call :=
  match goal with
  | R : respond ?c ?w = (_, Raise ?x) |- exists _ _, _ /\ snd _ = Raise ?x =>
      exists c, w; rewrite R; split; [auto 10 | reflexivity]
  end.

(** X10. Once the browser is launched and the page created, whatever
    happens on the page the last two calls of [check_numbers] are
    [browser.close()] and the exit of the Playwright context, and it
    returns normally unless one of these two raises. *)
Theorem browser_is_always_closed (s : state W) w1 w2 w3 :
  respond SyncPlaywrightStart (world s) = (w1, Ret tt) ->
  respond Launch w1 = (w2, Ret tt) ->
  respond NewPage w2 = (w3, Ret tt) ->
  exists s' r evs,
    check_numbers s = (s', r)
    /\ events s'
       = events s ++ [Called SyncPlaywrightStart; Called Launch; Called NewPage]
         ++ evs ++ [Called BrowserClose; Called SyncPlaywrightStop]
    /\ match r with
       | Ret _ => True
       | Raise e =>
           exists c w, (c = BrowserClose \/ c = SyncPlaywrightStop)
                       /\ snd (respond c w) = Raise e
       end.
Proof.
  intros R1 R2 R3.
  unfold check_numbers, set_available, try_finally, bind, do_call, emit,
    get_available.
  cbn. rewrite R1. cbn. rewrite R2. cbn. rewrite R3. cbn.
  match goal with
  | |- context [check_numbers_guarded ?s0] =>
      destruct (check_numbers_guarded_outcome respond cfg s0) as (sg & o & E & _ & _);
      destruct (check_numbers_guarded_checker_event s0) as (evs & Hev & _);
      rewrite E in *
  end.
  cbn in *.
  destruct (respond BrowserClose (world sg)) as [w4 [[]|e4]] eqn:R4; cbn;
    destruct (respond SyncPlaywrightStop w4) as [w5 [[]|e5]] eqn:R5; cbn;
    try destruct o as [v|]; cbn; eexists _, _, evs; (split; [reflexivity|]);
    cbn; rewrite Hev, <- !app_assoc; (split; [reflexivity|]);
    first [exact I | blame_call].
Qed.




Lemma send_telegram_message_returns text (s : state W) :
  snd (send_telegram_message text s) = Ret tt.
Proof.
  destruct (credentials_unset cfg) eqn:U.
  - now rewrite (send_telegram_message_unset _ _ _ _ U).
  - rewrite (send_telegram_message_set _ _ _ _ U).
    now destruct (respond _ (world s)) as [w' [resp|e]].
Qed.

(** X13. [main] raises only what starting Playwright, launching the
    browser, creating the page, [browser.close()] or leaving the
    Playwright context raised, and then it has made no HTTP call: every
    failure on the page or of the notification ends in a normal return
    when these five calls return. *)
Theorem main_raises_only_from_browser_start (s s' : state W) e :
  main s = (s', Raise e) ->
  (exists c w, (c = SyncPlaywrightStart \/ c = Launch \/ c = NewPage
                \/ c = BrowserClose \/ c = SyncPlaywrightStop)
               /\ snd (respond c w) = Raise e)
  /\ http_log s' = http_log s.
Proof.
  rewrite main_unfold.
  pose proof (check_numbers_outcome respond cfg
                (logged s [Printed "[INFO] Starting du number check..."])) as O.
  pose proof (check_numbers_http respond cfg
                (logged s [Printed "[INFO] Starting du number check..."])) as G.
  destruct (check_numbers _) as [s1 [[|q l]|e1]]; cbn [fst] in G.
  - discriminate.
  - intros H. pose proof (send_telegram_message_returns
                 (message (q :: l))
                 (logged s1 [Printed "[INFO] At least one number appears available. Sending Telegram alert..."])) as Hs.
    rewrite H in Hs. discriminate Hs.
  - intros [= <- <-]. split; [exact O|].
    now rewrite G, http_log_logged_print.
Qed.

(** X14. A run makes at most one HTTP call: either none, or, when the
    checker returned a non-empty list and the credentials are set, one
    POST to the bot's [sendMessage] endpoint carrying the chat id and the
    message composed from that list. *)
Theorem main_sends_at_most_one_message (s : state W) :
  http_log (fst (main s)) = http_log s
  \/ exists s1 l,
       check_numbers (logged s [Printed "[INFO] Starting du number check..."])
       = (s1, Ret l)
       /\ l <> []
       /\ credentials_unset cfg = false
       /\ http_log (fst (main s))
          = http_log s
            ++ [Called (Post (telegram_url cfg) (TELEGRAM_CHAT_ID cfg) (message l) 10)].
Proof.
  rewrite main_unfold.
  pose proof (check_numbers_http respond cfg
                (logged s [Printed "[INFO] Starting du number check..."])) as G.
  destruct (check_numbers _) as [s1 [[|q l]|e1]] eqn:Ec; cbn [fst] in G.
  - left. cbn [fst]. now rewrite http_log_logged_print, G, http_log_logged_print.
  - destruct (credentials_unset cfg) eqn:U.
    + left. rewrite (send_telegram_message_unset _ _ _ _ U). cbn [fst].
      now rewrite !http_log_logged_print, G, http_log_logged_print.
    + right. exists s1, (q :: l). split; [reflexivity|]. split; [discriminate|].
      split; [reflexivity|].
      rewrite (send_telegram_message_set _ _ _ _ U). cbn [world logged].
      rewrite http_log_logged_print in G.
      destruct (respond _ (world s1)) as [w' [resp|e]]; cbn [fst];
        unfold http_log, http_calls in *; cbn [events logged];
        rewrite !List.filter_app; cbn; rewrite app_nil_r; now rewrite G.
  - left. cbn [fst]. now rewrite G, http_log_logged_print.
Qed.

(** *** One search box for all queries *)

Lemma types_nothing_uses_handle sb ev : types_nothing ev -> uses_handle sb ev.
Proof. destruct ev as [[]| |]; cbn; tauto. Qed.

Lemma is_lookup_types_nothing ev : is_lookup ev -> types_nothing ev.
Proof. destruct ev as [[]| |]; cbn; tauto. Qed.

Lemma open_du_number_modal_types_nothing : only_emits types_nothing open_du_number_modal.
Proof. unfold open_du_number_modal. emits. Qed.

Lemma get_search_box_types_nothing : only_emits types_nothing get_search_box.
Proof.
  eapply only_emits_weaken; [apply is_lookup_types_nothing|].
  unfold get_search_box. emits. apply scan_candidates_only_looks.
Qed.

Lemma loop_uses_handle sb qs : only_emits (uses_handle sb) (for_each qs (check_one sb)).
Proof.
  apply only_emits_for_each. intros [sv mf] _.
  unfold check_one, submit_and_read, classify. emits.
Qed.

Lemma one_handle_of_handle {A} sb (m : M W A) :
  only_emits (uses_handle sb) m -> one_handle m.
Proof. intros H s. destruct (H s) as (evs & E & F). now exists sb, evs. Qed.

Lemma one_handle_of_nothing {A} (m : M W A) :
  only_emits types_nothing m -> one_handle m.
Proof.
  intros H. apply (one_handle_of_handle (get_by_placeholder "")).
  eapply only_emits_weaken; [apply types_nothing_uses_handle | exact H].
Qed.

Lemma Forall_types_nothing sb evs :
  Forall types_nothing evs -> Forall (uses_handle sb) evs.
Proof. intros F. eapply Forall_impl; [exact F | apply types_nothing_uses_handle]. Qed.

Lemma one_handle_after {A B} (m : M W A) (k : A -> M W B) :
  only_emits types_nothing m -> (forall a, one_handle (k a)) -> one_handle (bind m k).
Proof.
  intros Hm Hk s. unfold bind. destruct (Hm s) as (evs & E & F).
  destruct (m s) as [s' [a|e]]; cbn [fst] in *.
  - destruct (Hk a s') as (sb & evs' & E' & F'). exists sb, (evs ++ evs').
    rewrite E', E, app_assoc. split; [reflexivity|].
    apply Forall_app. split; [now apply Forall_types_nothing | exact F'].
  - exists (get_by_placeholder ""), evs. split; [exact E|].
    now apply Forall_types_nothing.
Qed.

Lemma one_handle_before {A B} (m : M W A) (k : A -> M W B) :
  one_handle m -> (forall a, only_emits types_nothing (k a)) -> one_handle (bind m k).
Proof.
  intros Hm Hk s. unfold bind. destruct (Hm s) as (sb & evs & E & F).
  destruct (m s) as [s' [a|e]]; cbn [fst] in *.
  - destruct (Hk a s') as (evs' & E' & F'). exists sb, (evs ++ evs').
    rewrite E', E, app_assoc. split; [reflexivity|].
    apply Forall_app. split; [exact F | now apply Forall_types_nothing].
  - now exists sb, evs.
Qed.

Lemma one_handle_try_except {A} (m : M W A) (h : exn -> M W A) :
  one_handle m -> (forall e, only_emits types_nothing (h e)) ->
  one_handle (try_except m h).
Proof.
  intros Hm Hh s. unfold try_except. destruct (Hm s) as (sb & evs & E & F).
  destruct (m s) as [s' [a|e]]; cbn [fst] in *.
  - now exists sb, evs.
  - destruct (Hh e s') as (evs' & E' & F'). exists sb, (evs ++ evs').
    rewrite E', E, app_assoc. split; [reflexivity|].
    apply Forall_app. split; [exact F | now apply Forall_types_nothing].
Qed.

Lemma one_handle_try_finally {A} (m : M W A) (fin : M W unit) :
  one_handle m -> only_emits types_nothing fin -> one_handle (try_finally m fin).
Proof.
  intros Hm Hf s. unfold try_finally. destruct (Hm s) as (sb & evs & E & F).
  destruct (m s) as [s' r]. cbn [fst] in *.
  destruct (Hf s') as (evs' & E' & F').
  exists sb, (evs ++ evs'). split.
  - destruct (fin s') as [s'' [u|e]]; cbn [fst] in *; now rewrite E', E, app_assoc.
  - apply Forall_app. split; [exact F | now apply Forall_types_nothing].
Qed.

Lemma check_numbers_guarded_one_handle : one_handle check_numbers_guarded.
Proof.
  unfold check_numbers_guarded, check_numbers_try.
  apply one_handle_try_except; [|emits].
  apply one_handle_after; [apply open_du_number_modal_types_nothing|]. intros _.
  apply one_handle_after; [emits|]. intros _.
  apply one_handle_after; [apply get_search_box_types_nothing|]. intros [sb|].
  - apply (one_handle_of_handle sb). apply only_emits_bind.
    + apply loop_uses_handle.
    + intros _. apply only_emits_ret.
  - apply one_handle_of_nothing. emits.
Qed.

(** X8. The search box is found once and reused: in every run of
    [check_numbers] there is one locator that receives all the typing
    and all the key presses. *)
Theorem queries_share_one_handle (s : state W) :
  exists sb evs,
    events (fst (check_numbers s)) = events s ++ evs
    /\ Forall (uses_handle sb) evs.
Proof.
  revert s. change (one_handle check_numbers). unfold check_numbers.
  apply one_handle_after; [emits|]. intros _.
  apply one_handle_after; [emits|]. intros _.
  apply one_handle_before; [|emits].
  apply one_handle_try_finally; [|emits].
  apply one_handle_after; [emits|]. intros _.
  apply one_handle_after; [emits|]. intros _.
  apply one_handle_try_finally; [|emits].
  apply check_numbers_guarded_one_handle.
Qed.

End MoreProperties.

(* ================================================================= *)
(** ** The script on concrete pages *)

Example str_in_empty_empty : str_in "" "" = true.
Proof. reflexivity. Qed.

Example str_in_inside : str_in "0202" "282 0202 ok" = true.
Proof. reflexivity. Qed.

Example str_in_needs_contiguous : str_in "2820202" "282 0202" = false.
Proof. reflexivity. Qed.

Example str_replace_spaces : str_replace " " "" " 282 0202 " = "2820202"%string.
Proof. reflexivity. Qed.

(** The scenario of the specification: the available list is the second
    pair, and one message with the header and one bullet is posted. *)
Example scenario_run :
  available (fst (main (scripted scenario_page) scenario_cfg initial))
  = [("1051661", "1051661")]%string
  /\ http_log (fst (main (scripted scenario_page) scenario_cfg initial))
     = [Called (Post "https://api.telegram.org/bot123:token/sendMessage" "42"
                  ("The following numbers appear to be available on du:"
                   ++ newline ++ "- 1051661") 10)].
Proof. split; vm_compute; reflexivity. Qed.

(** The marker wins over the fragment: the text read holds both. *)
Lemma no_results_marker_excludes_witness :
  submit_and_read (scripted marker_page) search_input "282 0202" initial
  = (after_read marker_page "282 0202", Ret (Some "282 0202 - No results found"%string))
  /\ substring_of "No results found" "282 0202 - No results found"
  /\ str_in (str_replace " " "" "282 0202")
       (str_replace " " "" "282 0202 - No results found") = true
  /\ available (fst (check_one (scripted marker_page) search_input
                       ("282 0202", "282 0202")%string initial)) = [].
Proof.
  split; [reflexivity|]. split; [apply str_in_spec; reflexivity|].
  split; [reflexivity|].
  apply (no_results_marker_excludes (scripted marker_page) search_input
           "282 0202" "282 0202" initial (after_read marker_page "282 0202")
           (Some "282 0202 - No results found"%string)).
  - reflexivity.
  - apply str_in_spec; reflexivity.
Defined.

(** C2 as stated fails: a line break is whitespace, the page text and the
    fragment differ in nothing else, the marker is absent, and the query
    ends as ambiguous with nothing recorded. *)
Lemma line_break_is_not_normalized :
  spec_strip_whitespace ("282" ++ newline ++ "0202")%string
  = spec_strip_whitespace "2820202"
  /\ str_in "No results found" ("282" ++ newline ++ "0202")%string = false
  /\ check_one (scripted line_break_page) search_input ("2820202", "2820202")%string initial
     = (logged (after_read line_break_page "2820202")
          [Printed "[WARN] Ambiguous result for '2820202'. Did not see 'No results found' or the exact fragment."],
        Ret tt)
  /\ available (fst (check_one (scripted line_break_page) search_input
                       ("2820202", "2820202")%string initial)) = [].
Proof. repeat split; vm_compute; reflexivity. Qed.

(** The page shows the number with a space, the fragment has none. *)
Lemma space_insensitive_match_witness :
  submit_and_read (scripted spaced_page) search_input "2820202" initial
  = (after_read spaced_page "2820202", Ret (Some "Number 282 0202 is free"%string))
  /\ ~ substring_of "No results found" "Number 282 0202 is free"
  /\ "Number 282 0202 is free"%string = ("Number " ++ "282 0202" ++ " is free")%string
  /\ str_replace " " "" "282 0202" = str_replace " " "" "2820202"
  /\ available (fst (check_one (scripted spaced_page) search_input
                       ("2820202", "2820202")%string initial))
     = [("2820202", "2820202")%string].
Proof.
  assert (~ substring_of "No results found" "Number 282 0202 is free") as Hm.
  { intros H. apply str_in_spec in H. discriminate H. }
  split; [reflexivity|]. split; [exact Hm|]. split; [reflexivity|].
  split; [reflexivity|].
  rewrite (space_insensitive_match (scripted spaced_page) search_input
             "2820202" "2820202" initial (after_read spaced_page "2820202")
             (Some "Number 282 0202 is free"%string)
             "Number " "282 0202" " is free"
             eq_refl Hm eq_refl eq_refl).
  reflexivity.
Defined.

(** The reverse spacing: the fragment has the space, the page has not. *)
Example spaced_fragment_matches_compact_text :
  available (fst (check_one (scripted compact_page) search_input
                    ("282 0202", "282 0202")%string initial))
  = [("282 0202", "282 0202")%string].
Proof. reflexivity. Qed.

(** C3 as stated fails: one available entry whose fragment holds a line
    feed gives a message of three lines, the last of which is no bullet;
    and one entry can give the very text of two bullets. *)
Lemma fragment_with_line_feed_breaks_bullets :
  length [("1051661", "1051" ++ newline ++ "661")%string] = 1%nat
  /\ split_lines (message [("1051661", "1051" ++ newline ++ "661")%string])
     = ["The following numbers appear to be available on du:"; "- 1051"; "661"]%string
  /\ length (split_lines (message [("1051661", "1051" ++ newline ++ "661")%string]))
     = 3%nat
  /\ message [("1", "1" ++ newline ++ "- 2")%string]
     = message [("1", "1"); ("2", "2")]%string.
Proof. repeat split; vm_compute; reflexivity. Qed.

(** The message for two available numbers. *)
Lemma message_has_header_and_bullets_witness :
  [("282 0202", "282 0202"); ("1051661", "1051661")]%string <> []
  /\ Forall (fun q => no_newline q.2)
       [("282 0202", "282 0202"); ("1051661", "1051661")]%string
  /\ message [("282 0202", "282 0202"); ("1051661", "1051661")]%string
     = ("The following numbers appear to be available on du:"
        ++ newline ++ "- 282 0202" ++ newline ++ "- 1051661")%string
  /\ split_lines (message [("282 0202", "282 0202"); ("1051661", "1051661")]%string)
     = ["The following numbers appear to be available on du:"; "- 282 0202"; "- 1051661"]%string
  /\ length (split_lines (message [("282 0202", "282 0202"); ("1051661", "1051661")]%string))
     = 3%nat.
Proof.
  assert ([("282 0202", "282 0202"); ("1051661", "1051661")]%string <> []) as Hne
    by discriminate.
  assert (Forall (fun q => no_newline q.2)
            [("282 0202", "282 0202"); ("1051661", "1051661")]%string) as Hnl
    by (repeat constructor).
  split; [exact Hne|]. split; [exact Hnl|]. split; [reflexivity|].
  destruct (message_has_header_and_bullets (scripted scenario_page) scenario_cfg
              [("282 0202", "282 0202"); ("1051661", "1051661")]%string Hne Hnl)
    as (Hsplit & Hlen & _).
  split; [exact Hsplit | exact Hlen].
Defined.

(** A run on a page without search box: nothing available, nothing sent. *)
Lemma empty_available_sends_nothing_witness :
  check_numbers (scripted page_without_input) scenario_cfg
    (logged initial [Printed "[INFO] Starting du number check..."])
  = (after_check page_without_input scenario_cfg, Ret [])
  /\ main (scripted page_without_input) scenario_cfg initial
     = (logged (after_check page_without_input scenario_cfg)
          [Printed "[INFO] No numbers available today."], Ret tt)
  /\ http_log (fst (main (scripted page_without_input) scenario_cfg initial)) = [].
Proof.
  assert (check_numbers (scripted page_without_input) scenario_cfg
            (logged initial [Printed "[INFO] Starting du number check..."])
          = (after_check page_without_input scenario_cfg, Ret [])) as H
    by (vm_compute; reflexivity).
  split; [exact H|].
  exact (empty_available_sends_nothing (scripted page_without_input) scenario_cfg
           initial (after_check page_without_input scenario_cfg) H).
Defined.

(** The read of the first query raises; the second is still checked and
    recorded. *)
Lemma query_failure_is_isolated_witness :
  submit_and_read (scripted detached_page) search_input "282 0202" initial
  = (after_read detached_page "282 0202", Raise detached)
    /\ available (fst (check_one (scripted detached_page) search_input
                         ("282 0202", "282 0202")%string initial)) = []
    /\ available (fst (for_each (NUMBERS_TO_CHECK scenario_cfg)
                         (check_one (scripted detached_page) search_input) initial))
       = [("1051661", "1051661")%string].
Proof.
  split; [reflexivity|].
  destruct (query_failure_is_isolated (scripted detached_page) search_input
              "282 0202" "282 0202" [("1051661", "1051661")%string]
              initial (after_read detached_page "282 0202") detached eq_refl)
    as (_ & Hav & Hloop & _).
  split; [exact Hav|].
  change (NUMBERS_TO_CHECK scenario_cfg)
    with [("282 0202", "282 0202"); ("1051661", "1051661")]%string.
  rewrite Hloop. reflexivity.
Defined.

(** An endpoint that cannot be reached, and one that answers 403. *)
Lemma delivery_failure_is_contained_witness :
  credentials_unset scenario_cfg = false
  /\ snd (send_telegram_message (scripted unreachable_page) scenario_cfg "hello" initial)
     = Ret tt
  /\ events (fst (send_telegram_message (scripted unreachable_page) scenario_cfg
                    "hello" initial))
     = [Called (Post "https://api.telegram.org/bot123:token/sendMessage" "42" "hello" 10);
        Printed "[ERROR] Exception while sending Telegram message: ConnectionError('Connection refused')"]
  /\ snd (send_telegram_message (scripted forbidden_page) scenario_cfg "hello" initial)
     = Ret tt
  /\ events (fst (send_telegram_message (scripted forbidden_page) scenario_cfg
                    "hello" initial))
     = [Called (Post "https://api.telegram.org/bot123:token/sendMessage" "42" "hello" 10);
        Printed "[ERROR] Failed to send Telegram message: Forbidden"].
Proof.
  split; [reflexivity|].
  destruct (delivery_failure_is_contained (scripted unreachable_page) scenario_cfg
              "hello" initial) as (_ & Hexn & _).
  destruct (delivery_failure_is_contained (scripted forbidden_page) scenario_cfg
              "hello" initial) as (_ & _ & Hstatus).
  rewrite (Hexn eq_refl 0%nat connection_error eq_refl).
  rewrite (Hstatus eq_refl 0%nat (Response 403 "Forbidden") eq_refl ltac:(discriminate)).
  repeat split.
Defined.

(** The token still holds the placeholder. *)
Lemma credentials_unset_skips_sending_witness :
  substring_of "PUT_YOUR" (TELEGRAM_BOT_TOKEN placeholder_cfg)
  /\ send_telegram_message (scripted scenario_page) placeholder_cfg "hello" initial
     = (logged initial
          [Printed "[WARN] Telegram credentials not set; skipping notification."],
        Ret tt)
  /\ http_log (fst (send_telegram_message (scripted scenario_page) placeholder_cfg
                      "hello" initial)) = [].
Proof.
  assert (substring_of "PUT_YOUR" (TELEGRAM_BOT_TOKEN placeholder_cfg)) as H
    by (apply str_in_spec; reflexivity).
  split; [exact H|].
  exact (credentials_unset_skips_sending (scripted scenario_page) placeholder_cfg
           "hello" initial (or_intror (or_intror (or_introl H)))).
Defined.

(** A fragment of two spaces, on a page whose text is [None]. *)
Lemma blank_fragment_is_available_witness :
  only_spaces "  " = true
  /\ submit_and_read (scripted absent_text_page) search_input "282 0202" initial
     = (after_read absent_text_page "282 0202", Ret None)
  /\ available (fst (check_one (scripted absent_text_page) search_input
                       ("282 0202", "  ")%string initial))
     = [("282 0202", "  ")%string].
Proof.
  split; [reflexivity|]. split; [reflexivity|].
  rewrite (blank_fragment_is_available (scripted absent_text_page) search_input
             "282 0202" "  " initial (after_read absent_text_page "282 0202") None
             eq_refl eq_refl (or_intror (or_introl eq_refl))).
  reflexivity.
Defined.

(** The run of the scenario returns the second configured pair. *)
Lemma available_is_subsequence_witness :
  check_numbers (scripted scenario_page) scenario_cfg
    (State 0 [Printed "[INFO] Starting du number check..."] [])
  = (after_check scenario_page scenario_cfg, Ret [("1051661", "1051661")%string])
  /\ sublist [("1051661", "1051661")%string] (NUMBERS_TO_CHECK scenario_cfg).
Proof.
  assert (check_numbers (scripted scenario_page) scenario_cfg
            (State 0 [Printed "[INFO] Starting du number check..."] [])
          = (after_check scenario_page scenario_cfg, Ret [("1051661", "1051661")%string]))
    as H by (vm_compute; reflexivity).
  split; [exact H|].
  exact (available_is_subsequence (scripted scenario_page) scenario_cfg _ _ _ H).
Defined.

(** C6 at a page that has gone away once the modal is open: the first
    two lookups raise and are swallowed, the [count()] of the scan raises
    and the locator raises with it instead of returning [None].  The
    exception is caught in [check_numbers]: the run still ends with an
    empty list, no HTTP call and a normal return. *)
Theorem locator_raises_on_closed_page :
  get_search_box (scripted page_closed) initial
  = (State 0
       [Called (Count (get_by_placeholder "Search for a number"));
        Called (Count (get_by_role "textbox" "Search for a number"));
        Printed "[DEBUG] Falling back to visible text/search input detection...";
        Called (Count (page_locator "input[type='text'], input[type='search']"))]
       [],
     Raise target_closed)
  /\ snd (check_numbers (scripted page_closed) scenario_cfg initial) = Ret []
  /\ snd (main (scripted page_closed) scenario_cfg initial) = Ret tt
  /\ http_log (fst (main (scripted page_closed) scenario_cfg initial)) = [].
Proof. repeat split; vm_compute; reflexivity. Qed.

(** On a page where the three lookups find nothing, the locator returns
    [None] and the run ends the same way. *)
Example locator_finds_nothing :
  snd (get_search_box (scripted page_without_input) initial) = Ret None
  /\ snd (check_numbers (scripted page_without_input) scenario_cfg initial) = Ret []
  /\ snd (main (scripted page_without_input) scenario_cfg initial) = Ret tt
  /\ http_log (fst (main (scripted page_without_input) scenario_cfg initial)) = [].
Proof. repeat split; vm_compute; reflexivity. Qed.

(* ================================================================= *)
(** ** The further properties on concrete pages *)

(** Two fragments read back from their message. *)
Lemma fragments_read_back_from_message_witness :
  Forall (fun q => no_newline q.2) [("282 0202", "282 0202"); ("1051661", "1051661")]%string
  /\ map bullet_text
       (tail (split_lines (message [("282 0202", "282 0202"); ("1051661", "1051661")]%string)))
     = ["282 0202"; "1051661"]%string.
Proof.
  assert (Forall (fun q => no_newline q.2)
            [("282 0202", "282 0202"); ("1051661", "1051661")]%string) as H
    by (repeat constructor).
  split; [exact H|].
  exact (fragments_read_back_from_message _ H).
Defined.

(** On a page with the role but no placeholder the role handle is
    returned after two lookups. *)
Lemma search_box_strategy_order_witness :
  scripted page_with_role (Count (get_by_placeholder "Search for a number")) 0%nat
  = (0%nat, Ret 0%nat)
  /\ scripted page_with_role (Count (get_by_role "textbox" "Search for a number")) 0%nat
     = (0%nat, Ret 1%nat)
  /\ get_search_box (scripted page_with_role) initial
     = (State 0
          [Called (Count (get_by_placeholder "Search for a number"));
           Called (Count (get_by_role "textbox" "Search for a number"));
           Printed "[DEBUG] Found search box via role/name."]
          [],
        Ret (Some (loc_first (get_by_role "textbox" "Search for a number")))).
Proof.
  split; [reflexivity|]. split; [reflexivity|].
  exact (proj2 (search_box_strategy_order (scripted page_with_role) initial)
           0%nat (Ret 0%nat) 0%nat 0%nat eq_refl ltac:(discriminate) eq_refl).
Defined.

(** Three plain inputs: the hidden one and the detached one are passed
    over, the third is returned. *)
Lemma scan_returns_first_visible_witness :
  plain_inputs_visibility 2 = Ret true
  /\ plain_inputs_visibility 0 <> Ret true
  /\ plain_inputs_visibility 1 <> Ret true
  /\ snd (get_search_box (scripted page_with_plain_inputs) initial)
     = Ret (Some (loc_nth text_inputs 2)).
Proof.
  split; [reflexivity|]. split; [discriminate|]. split; [discriminate|].
  apply (scan_returns_first_visible (scripted page_with_plain_inputs)
           plain_inputs_visibility 3 2 initial).
  - intros w c. discriminate.
  - intros w c. discriminate.
  - intros w. reflexivity.
  - intros [|[|k]] w; reflexivity.
  - lia.
  - reflexivity.
  - intros [|[|k]] Hk; [discriminate | discriminate | lia].
Defined.

(** The page loads too slowly: the run goes on and still finds the
    available number. *)
Lemma navigation_timeout_is_not_fatal_witness :
  slow_site (Goto (DU_URL scenario_cfg) 30000) 0%nat = (0%nat, Raise navigation_timeout)
  /\ is_PlaywrightTimeoutError navigation_timeout = true
  /\ open_du_number_modal slow_site scenario_cfg initial
     = (dismiss_popup slow_site ;; click_setup_my_plan slow_site ;;
        click_change slow_site ;; modal_should_be_open slow_site)
         (State 0
            [Printed "[INFO] Opening du page...";
             Called (Goto (DU_URL scenario_cfg) 30000);
             Called PageUrl;
             Printed "[WARN] Page load timeout, continuing anyway (URL: about:blank)";
             Called (WaitForTimeout 3000)]
            [])
  /\ snd (check_numbers slow_site scenario_cfg initial) = Ret [("1051661", "1051661")%string].
Proof.
  split; [reflexivity|]. split; [reflexivity|]. split; [|vm_compute; reflexivity].
  exact (proj2 (navigation_timeout_is_not_fatal slow_site scenario_cfg initial
                  0%nat navigation_timeout eq_refl)
           eq_refl 0%nat "about:blank"%string 0%nat eq_refl eq_refl).
Defined.

(** No "Change" link can be clicked: the second exception is the one
    raised. *)
Lemma change_click_falls_back_witness :
  (load_page (scripted page_without_change) scenario_cfg ;;
   dismiss_popup (scripted page_without_change) ;;
   click_setup_my_plan (scripted page_without_change)) initial
  = (after_setup_click page_without_change, Ret tt)
  /\ scripted page_without_change (Click exact_change_link true) 0%nat
     = (0%nat, Raise not_clickable)
  /\ scripted page_without_change (Click scoped_change_link true) 0%nat
     = (0%nat, Raise detached)
  /\ snd (open_du_number_modal (scripted page_without_change) scenario_cfg initial)
     = Raise detached.
Proof.
  assert ((load_page (scripted page_without_change) scenario_cfg ;;
           dismiss_popup (scripted page_without_change) ;;
           click_setup_my_plan (scripted page_without_change)) initial
          = (after_setup_click page_without_change, Ret tt)) as H
    by (vm_compute; reflexivity).
  split; [exact H|]. split; [reflexivity|]. split; [reflexivity|].
  rewrite (proj2 (change_click_falls_back (scripted page_without_change) scenario_cfg
                    initial (after_setup_click page_without_change)
                    0%nat not_clickable H eq_refl)
             0%nat detached eq_refl).
  reflexivity.
Defined.

(** The scenario in a browser that cannot be closed: the number is found,
    the close is still the last call but one, and its exception leaves
    [check_numbers]. *)
Lemma browser_is_always_closed_witness :
  stuck_browser SyncPlaywrightStart 0%nat = (0%nat, Ret tt)
  /\ stuck_browser Launch 0%nat = (0%nat, Ret tt)
  /\ stuck_browser NewPage 0%nat = (0%nat, Ret tt)
  /\ snd (check_numbers stuck_browser scenario_cfg initial) = Raise target_closed
  /\ exists s' r evs,
       check_numbers stuck_browser scenario_cfg initial = (s', r)
       /\ events s'
          = events initial ++ [Called SyncPlaywrightStart; Called Launch; Called NewPage]
            ++ evs ++ [Called BrowserClose; Called SyncPlaywrightStop]
       /\ match r with
          | Ret _ => True
          | Raise e =>
              exists c w, (c = BrowserClose \/ c = SyncPlaywrightStop)
                          /\ snd (stuck_browser c w) = Raise e
          end.
Proof.
  split; [reflexivity|]. split; [reflexivity|]. split; [reflexivity|].
  split; [vm_compute; reflexivity|].
  exact (browser_is_always_closed stuck_browser scenario_cfg initial
           0%nat 0%nat 0%nat eq_refl eq_refl eq_refl).
Defined.



(** In a browser that cannot be closed the exception that leaves [main]
    is the one of [browser.close()]. *)
Lemma main_raises_only_from_browser_start_witness :
  snd (main stuck_browser scenario_cfg initial) = Raise target_closed
  /\ (exists c w, (c = SyncPlaywrightStart \/ c = Launch \/ c = NewPage
                   \/ c = BrowserClose \/ c = SyncPlaywrightStop)
                  /\ snd (stuck_browser c w) = Raise target_closed)
  /\ http_log (fst (main stuck_browser scenario_cfg initial)) = [].
Proof.
  split; [vm_compute; reflexivity|].
  apply (main_raises_only_from_browser_start stuck_browser scenario_cfg initial
           (fst (main stuck_browser scenario_cfg initial)) target_closed).
  vm_compute; reflexivity.
Defined.

(** The locator on a page with three plain inputs. *)
Lemma locator_only_looks_witness :
  exists evs,
    events (fst (get_search_box (scripted page_with_plain_inputs) initial))
    = events initial ++ evs
    /\ Forall is_lookup evs.
Proof. exact (locator_only_looks (scripted page_with_plain_inputs) initial). Defined.

(** The run of the scenario types the two configured numbers only. *)
Lemma checker_types_only_configured_numbers_witness :
  exists evs,
    events (fst (check_numbers (scripted scenario_page) scenario_cfg initial))
    = events initial ++ evs
    /\ Forall (checker_event [("282 0202", "282 0202"); ("1051661", "1051661")]%string) evs.
Proof.
  exact (checker_types_only_configured_numbers (scripted scenario_page) scenario_cfg initial).
Defined.

(** An ambiguous text records nothing. *)
Lemma query_recorded_exactly_when_witness :
  recorded "282 0202" (Some "Please try again later"%string) = false
  /\ available (fst (check_one (scripted ambiguous_page) search_input
                       ("282 0202", "282 0202")%string initial)) = [].
Proof.
  split; [reflexivity|].
  rewrite (proj2 (query_recorded_exactly_when (scripted ambiguous_page) search_input
                    "282 0202" "282 0202" initial)).
  reflexivity.
Defined.

(** What [open_du_number_modal] raises without a "Change" link is what
    the scoped click raised. *)
Lemma modal_raises_only_from_fatal_steps_witness :
  open_du_number_modal (scripted page_without_change) scenario_cfg
    (State 0 [Printed "[INFO] Starting du number check...";
              Called SyncPlaywrightStart; Called Launch; Called NewPage] [])
  = (after_modal page_without_change, Raise detached)
  /\ exists c w,
       snd (scripted page_without_change c w) = Raise detached
       /\ ((c = Goto (DU_URL scenario_cfg) 30000
            /\ is_PlaywrightTimeoutError detached = false)
           \/ c = PageUrl
           \/ c = WaitForTimeout 3000
           \/ c = Click (loc_first (get_by_text "Setup my plan" false)) false
           \/ c = Click scoped_change_link true).
Proof.
  assert (open_du_number_modal (scripted page_without_change) scenario_cfg
            (State 0 [Printed "[INFO] Starting du number check...";
                      Called SyncPlaywrightStart; Called Launch; Called NewPage] [])
          = (after_modal page_without_change, Raise detached)) as H
    by (vm_compute; reflexivity).
  split; [exact H|].
  exact (proj2 (modal_raises_only_from_fatal_steps (scripted page_without_change)
                  scenario_cfg) _ _ _ H).
Defined.

(** The run of the scenario makes one call. *)
Lemma main_sends_at_most_one_message_witness :
  http_log (fst (main (scripted scenario_page) scenario_cfg initial)) = http_log initial
  \/ exists s1 l,
       check_numbers (scripted scenario_page) scenario_cfg
         (logged initial [Printed "[INFO] Starting du number check..."])
       = (s1, Ret l)
       /\ l <> []
       /\ credentials_unset scenario_cfg = false
       /\ http_log (fst (main (scripted scenario_page) scenario_cfg initial))
          = http_log initial
            ++ [Called (Post (telegram_url scenario_cfg) (TELEGRAM_CHAT_ID scenario_cfg)
                          (message l) 10)].
Proof.
  exact (main_sends_at_most_one_message (scripted scenario_page) scenario_cfg initial).
Defined.

(** The run of the scenario: one locator receives both queries. *)
Lemma queries_share_one_handle_witness :
  exists sb evs,
    events (fst (check_numbers (scripted scenario_page) scenario_cfg initial))
    = events initial ++ evs
    /\ Forall (uses_handle sb) evs.
Proof.
  exact (queries_share_one_handle (scripted scenario_page) scenario_cfg initial).
Defined.
